(** * Warp10 datasource end-to-end scenarios: a shallow embedding

    The repository holds Playwright scenarios that drive a Grafana host
    and inspect the network exchanges of the Warp10 datasource plugin.
    This development embeds the parts of those scripts that decide the
    properties stated about them:

    - the JavaScript value operations the scripts rely on
      ([String.prototype.includes], optional chaining, truthiness,
      [parseInt]);
    - the [page.on('response')] handlers and the arrays they fill;
    - the response-inspection loop with its [try]/[catch];
    - the version branching and the selector fallbacks;
    - the scenario scripts themselves, as lists of awaited operations run
      by an interpreter that stops at the first operation that throws.

    The browser and the host are external: what they answer is an
    explicit environment argument of the interpreter. *)

From Stdlib Require Import ZArith List String Ascii Bool Lia PeanoNat.
From Stdlib Require DecimalString DecimalNat DecimalFacts.
Import ListNotations.
Open Scope string_scope.
Set Warnings "-register-all".

(* ================================================================== *)
(** ** JavaScript values as the scripts use them *)
(* ================================================================== *)

Module JS.

(** The double-quote character, for selectors and JSON bodies. *)
Definition dq : string := String "034"%char EmptyString.
(** A line feed, for template literals that span several lines. *)
Definition nl : string := String "010"%char EmptyString.

(** [s.startsWith(t)]. *)
Fixpoint startsWith (s t : string) {struct t} : bool :=
  match t with
  | EmptyString => true
  | String c t' =>
      match s with
      | EmptyString => false
      | String d s' => if Ascii.eqb c d then startsWith s' t' else false
      end
  end.

(** [s.includes(t)]: [t] occurs in [s] at some offset. *)
Fixpoint includes (s t : string) : bool :=
  if startsWith s t then true
  else match s with
       | EmptyString => false
       | String _ s' => includes s' t
       end.

(** Parsed JSON. Numbers are kept as integers: the scripts compare them
    with [200] and test them for zero only. An object is the list of its
    own properties after parsing. *)
Inductive json : Type :=
| JNull
| JBool (b : bool)
| JNum (n : Z)
| JStr (s : string)
| JArr (items : list json)
| JObj (fields : list (string * json)).

(** What a property chain evaluates to: [undefined] or a JSON value. *)
Inductive value : Type :=
| Undefined
| Val (j : json).

Fixpoint assoc (k : string) (fields : list (string * json)) : option json :=
  match fields with
  | [] => None
  | (k', v) :: rest => if String.eqb k k' then Some v else assoc k rest
  end.

(** [v.k] on a value that is neither [null] nor [undefined]. None of
    the keys the scripts read ([results], [A], [status], [frames],
    [schema], [name], [data], [error], [message], [queries], [expr]) is
    a built-in property of a string, number, boolean or array, so only
    objects answer. The key [values] names a built-in method of arrays;
    the scripts read element [0] of it, which is [undefined] as well, so
    the chain ends in the same value. *)
Definition prop (j : json) (k : string) : value :=
  match j with
  | JObj fields =>
      match assoc k fields with
      | Some v => Val v
      | None => Undefined
      end
  | _ => Undefined
  end.

(** [v?.k]. *)
Definition optProp (v : value) (k : string) : value :=
  match v with
  | Undefined => Undefined
  | Val JNull => Undefined
  | Val j => prop j k
  end.

(** [v?.[0]]. *)
Definition optIndex0 (v : value) : value :=
  match v with
  | Undefined => Undefined
  | Val JNull => Undefined
  | Val (JArr items) =>
      match items with
      | [] => Undefined
      | x :: _ => Val x
      end
  | Val (JStr s) =>
      match s with
      | EmptyString => Undefined
      | String c _ => Val (JStr (String c EmptyString))
      end
  | Val (JObj fields) =>
      match assoc "0" fields with
      | Some x => Val x
      | None => Undefined
      end
  | Val _ => Undefined
  end.

(** [!!v]. *)
Definition truthy (v : value) : bool :=
  match v with
  | Undefined => false
  | Val JNull => false
  | Val (JBool b) => b
  | Val (JNum n) => negb (n =? 0)%Z
  | Val (JStr s) => negb (String.eqb s EmptyString)
  | Val (JArr _) => true
  | Val (JObj _) => true
  end.

(** [typeof v === 'string']. *)
Definition isString (v : value) : bool :=
  match v with
  | Val (JStr _) => true
  | _ => false
  end.

(** [Array.isArray(v)]. *)
Definition isArray (v : value) : bool :=
  match v with
  | Val (JArr _) => true
  | _ => false
  end.

(** [Object.is(v, 200)], the test behind [expect(v).toBe(200)]. *)
Definition is200 (v : value) : bool :=
  match v with
  | Val (JNum n) => (n =? 200)%Z
  | _ => false
  end.

(** [expect(v).toContain(t)]: substring search on a string, membership
    (by [===]) on an array; any other received value fails the matcher. *)
Definition toContain (v : value) (t : string) : bool :=
  match v with
  | Val (JStr s) => includes s t
  | Val (JArr items) =>
      existsb (fun x => match x with
                        | JStr s => String.eqb s t
                        | _ => false
                        end) items
  | _ => false
  end.

End JS.

Import JS.


(* ================================================================== *)
(** ** The [page.on('response')] handlers *)
(* ================================================================== *)

Module Capture.

(** A response as the handler sees it. [body] is what
    [await response.json()] gives: [None] when it rejects because the
    body is not JSON. *)
Record Response : Type := mkResponse {
  url : string;
  method : string;
  status : Z;
  body : option json
}.

(** An element of the [responses] array: [{ url, json, status }]. *)
Record Captured : Type := mkCaptured {
  c_url : string;
  c_json : json;
  c_status : Z
}.

(** Lines written by the handlers. *)
Inductive Log : Type :=
| LCaptured (u : string) (st : Z)
| LParseFailed (u : string)
| LHealthReceived (j : json)
| LHealthParseFailed.

(** The variables the handlers close over. *)
Record State : Type := mkState {
  responses : list Captured;
  healthResponse : option json;
  logs : list Log
}.

Definition init : State := mkState [] None [].

(** [url.includes('/api/ds/query') && response.request().method() === 'POST'] *)
Definition isQuery (r : Response) : bool :=
  includes (url r) "/api/ds/query" && String.eqb (method r) "POST".

(** The same with [url.includes('ds_type=clevercloud-warp10-datasource')]. *)
Definition isWarp10Query (r : Response) : bool :=
  includes (url r) "/api/ds/query" && String.eqb (method r) "POST"
  && includes (url r) "ds_type=clevercloud-warp10-datasource".

(** [url.includes('/api/datasources') && url.includes('/health')] *)
Definition isHealth (r : Response) : bool :=
  includes (url r) "/api/datasources" && includes (url r) "/health".

(** The first [if] of a handler, for the filter [matches]:
    [try { json = await response.json(); responses.push(...); log(...) }
     catch (e) { log(...) }]. *)
Definition onQuery (matches : Response -> bool) (r : Response) (s : State)
  : State :=
  if matches r then
    match body r with
    | Some j =>
        mkState (responses s ++ [mkCaptured (url r) j (status r)])
                (healthResponse s)
                (logs s ++ [LCaptured (url r) (status r)])
    | None =>
        mkState (responses s) (healthResponse s)
                (logs s ++ [LParseFailed (url r)])
    end
  else s.

(** The second [if]: the health report overwrites [healthResponse]. *)
Definition onHealth (r : Response) (s : State) : State :=
  if isHealth r then
    match body r with
    | Some j =>
        mkState (responses s) (Some j) (logs s ++ [LHealthReceived j])
    | None =>
        mkState (responses s) (healthResponse s)
                (logs s ++ [LHealthParseFailed])
    end
  else s.

(** The handler of the scenario and datasource tests: both filters. A
    response that matches one filter goes through one [await]; for a
    response that matches both, this is the case in which nothing else
    settles between its two [await]s ([Phases.settle] takes them one at
    a time). *)
Definition scenarioHandler (r : Response) (s : State) : State :=
  onHealth r (onQuery isQuery r s).

(** The handler of the editor test: the query filter alone. *)
Definition editorHandler (r : Response) (s : State) : State :=
  onQuery isQuery r s.

(** The handler of the query-editor test: the plugin's queries only. *)
Definition queryEditorHandler (r : Response) (s : State) : State :=
  onQuery isWarp10Query r s.

(** The handler of the health-check tests: the health filter alone. *)
Definition healthHandler (r : Response) (s : State) : State :=
  onHealth r s.

(** Responses reach a handler one at a time; the list gives them in the
    order in which their [await response.json()] settles, which is when
    the handler's effect on the shared variables takes place. *)
Definition deliver (h : Response -> State -> State)
  (events : list Response) (s : State) : State :=
  fold_left (fun acc r => h r acc) events s.

(** Reading the buffer. *)
Definition drain (s : State) : list Captured := responses s.

(** What one response contributes to the buffer under a filter. *)
Definition capturedOf (matches : Response -> bool) (r : Response)
  : list Captured :=
  if matches r then
    match body r with
    | Some j => [mkCaptured (url r) j (status r)]
    | None => []
    end
  else [].

End Capture.

(* ================================================================== *)
(** ** Version probing and the selector tables *)
(* ================================================================== *)

Module Version.

Definition isDigit (c : ascii) : bool :=
  (48 <=? nat_of_ascii c)%nat && (nat_of_ascii c <=? 57)%nat.

Definition digitVal (c : ascii) : Z := Z.of_nat (nat_of_ascii c - 48).

(** White space that [parseInt] skips, in one byte: TAB, LF, VT, FF, CR
    and the space. *)
Definition isSpace (c : ascii) : bool :=
  let n := nat_of_ascii c in
  ((9 <=? n)%nat && (n <=? 13)%nat) || (n =? 32)%nat.

(** The same in two bytes of UTF-8: U+00A0. *)
Definition isSpace2 (c1 c2 : ascii) : bool :=
  (nat_of_ascii c1 =? 194)%nat && (nat_of_ascii c2 =? 160)%nat.

(** The same in three bytes of UTF-8: U+1680, U+2000 to U+200A, U+2028,
    U+2029, U+202F, U+205F, U+3000 and U+FEFF. *)
Definition isSpace3 (c1 c2 c3 : ascii) : bool :=
  let n1 := nat_of_ascii c1 in
  let n2 := nat_of_ascii c2 in
  let n3 := nat_of_ascii c3 in
  ((n1 =? 225) && (n2 =? 154) && (n3 =? 128))%nat
  || ((n1 =? 226) && (n2 =? 128)
      && (((128 <=? n3) && (n3 <=? 138))
          || (n3 =? 168) || (n3 =? 169) || (n3 =? 175)))%nat
  || ((n1 =? 226) && (n2 =? 129) && (n3 =? 159))%nat
  || ((n1 =? 227) && (n2 =? 128) && (n3 =? 128))%nat
  || ((n1 =? 239) && (n2 =? 187) && (n3 =? 191))%nat.

(** The string without its leading white space (a string is the
    sequence of its UTF-8 bytes). *)
Fixpoint skipSpaces (s : string) : string :=
  match s with
  | String c1 s1 =>
      if isSpace c1 then skipSpaces s1
      else if (nat_of_ascii c1 <? 128)%nat then s
      else
        match s1 with
        | String c2 s2 =>
            if isSpace2 c1 c2 then skipSpaces s2
            else
              match s2 with
              | String c3 s3 =>
                  if isSpace3 c1 c2 c3 then skipSpaces s3 else s
              | EmptyString => s
              end
        | EmptyString => s
        end
  | EmptyString => s
  end.

(** The longest run of decimal digits at the head of [s]; [None] (NaN)
    when there is none. *)
Fixpoint digits (s : string) (acc : Z) (seen : bool) : option Z :=
  match s with
  | String c s' =>
      if isDigit c then digits s' (10 * acc + digitVal c)%Z true
      else if seen then Some acc else None
  | EmptyString => if seen then Some acc else None
  end.

(** [parseInt(s, 10)]; [None] is [NaN]. The value is the integer the
    digits denote; the script holds it as a double, which is that
    integer up to [2^53] and a rounding of it above, so that comparing
    it with [10] gives the same answer either way. *)
Definition parseInt10 (s : string) : option Z :=
  match skipSpaces s with
  | String "-"%char s' => option_map Z.opp (digits s' 0%Z false)
  | String "+"%char s' => digits s' 0%Z false
  | s' => digits s' 0%Z false
  end.

(** [s.split('.')[0]] *)
Fixpoint beforeDot (s : string) : string :=
  match s with
  | EmptyString => EmptyString
  | String c s' =>
      if Ascii.eqb c "."%char then EmptyString else String c (beforeDot s')
  end.

(** [const major = parseInt(version.split('.')[0], 10)] *)
Definition major (version : string) : option Z :=
  parseInt10 (beforeDot version).

(** [major < 10]; a comparison with [NaN] is [false]. *)
Definition lt10 (m : option Z) : bool :=
  match m with
  | Some n => (n <? 10)%Z
  | None => false
  end.

(** [major >= 10]; a comparison with [NaN] is [false]. *)
Definition ge10 (m : option Z) : bool :=
  match m with
  | Some n => (10 <=? n)%Z
  | None => false
  end.

End Version.

Module Dom.

(** How the scripts address an element. *)
Inductive Locator : Type :=
| ByRole (role name : string)            (* page.getByRole(role, { name }) *)
| ByTestId (id : string)                 (* page.getByTestId(id) *)
| ByCss (selector : string)              (* page.locator(selector) *)
| ByCssText (selector text : string)     (* page.locator(selector, { hasText }) *)
| ByText (text : string)                 (* page.getByText(text, { exact: true }) *)
| Within (outer inner : Locator)         (* outer.getBy...(...) *)
| Nth (l : Locator) (n : nat).           (* l.nth(n); l.first() is l.nth(0) *)

Definition isButtonNamed (names : list string) (l : Locator) : bool :=
  match l with
  | ByRole role name =>
      String.eqb role "button" && existsb (String.eqb name) names
  | ByTestId id => existsb (String.eqb id) names
  | _ => false
  end.

(** The save-and-test button under either of its names. *)
Definition isSaveButton : Locator -> bool :=
  isButtonNamed ["Save & test";
                 "Data source settings page Save and Test button"].

(** The [Test] button of a provisioned datasource. *)
Definition isTestButton : Locator -> bool := isButtonNamed ["Test"].

Definition isDeleteButton : Locator -> bool :=
  isButtonNamed ["Data source settings page Delete button"].

Definition isConfirmButton : Locator -> bool :=
  isButtonNamed ["Confirm Modal Danger Button";
                 "data-testid Confirm Modal Danger Button"].

Definition runButton : Locator :=
  ByTestId "data-testid RefreshPicker run button".

Definition isRunButton (l : Locator) : bool :=
  match l with
  | ByTestId id => String.eqb id "data-testid RefreshPicker run button"
  | _ => false
  end.

(** [page.locator('.query-editor-row textarea').first()] *)
Definition editor : Locator := Nth (ByCss ".query-editor-row textarea") 0.

Definition isEditor (l : Locator) : bool :=
  match l with
  | Nth (ByCss sel) 0 => String.eqb sel ".query-editor-row textarea"
  | _ => false
  end.

Definition isNameField (l : Locator) : bool :=
  match l with
  | ByCss sel => String.eqb sel "#basic-settings-name"
  | _ => false
  end.

(** What [clickAddPanelButton] needs to know of the page: whether
    [page.$(sel)] finds an element, and whether [el.click()] resolves. *)
Record PageView : Type := mkPageView {
  present : string -> bool;
  clickOk : string -> bool
}.

Inductive ClickResult : Type :=
| Clicked (sel : string)
| ClickThrew (sel : string)
| NotFound.

(** The [selectors] array of [clickAddPanelButton]. *)
Definition addPanelSelectors : list string :=
  [ "[data-testid=" ++ dq ++ "data-testid Create new panel button" ++ dq ++ "]";
    "[data-testid=" ++ dq ++ "add-panel-button" ++ dq ++ "]";
    "button[aria-label=" ++ dq ++ "Add new panel" ++ dq ++ "]";
    "button:has-text(" ++ dq ++ "Add visualization" ++ dq ++ ")" ].

(** [for (const sel of selectors) { el = await page.$(sel);
      if (el) { await el.click(); return; } }  throw new Error(...)] *)
Fixpoint tryEach (p : PageView) (sels : list string) : ClickResult :=
  match sels with
  | [] => NotFound
  | sel :: rest =>
      if present p sel
      then (if clickOk p sel then Clicked sel else ClickThrew sel)
      else tryEach p rest
  end.

Definition clickAddPanelButton (p : PageView) : ClickResult :=
  tryEach p addPanelSelectors.

(** The version-dependent constants of the first scenario script. *)
Record Targets : Type := mkTargets {
  basePath : string;
  saveButtonName : string;
  myDsPath : string;
  deleteButton : Locator;
  confirmButton : Locator
}.

Definition legacyTargets : Targets :=
  mkTargets "/connections/your-connections/datasources/new"
            "Data source settings page Save and Test button"
            "/connections/your-connections/datasources"
            (ByRole "button" "Data source settings page Delete button")
            (ByRole "button" "Confirm Modal Danger Button").

Definition modernTargets : Targets :=
  mkTargets "/connections/datasources/new"
            "Save & test"
            "/connections/datasources"
            (ByTestId "Data source settings page Delete button")
            (ByTestId "data-testid Confirm Modal Danger Button").

(** The five [major < 10 ? ... : ...] constants, one conditional each. *)
Definition targetsFor (version : string) : Targets :=
  let major := Version.major version in
  mkTargets
    (if Version.lt10 major
     then "/connections/your-connections/datasources/new"
     else "/connections/datasources/new")
    (if Version.lt10 major
     then "Data source settings page Save and Test button"
     else "Save & test")
    (if Version.lt10 major
     then "/connections/your-connections/datasources"
     else "/connections/datasources")
    (if Version.lt10 major
     then ByRole "button" "Data source settings page Delete button"
     else ByTestId "Data source settings page Delete button")
    (if Version.lt10 major
     then ByRole "button" "Confirm Modal Danger Button"
     else ByTestId "data-testid Confirm Modal Danger Button").

End Dom.

(* ================================================================== *)
(** ** The response-inspection loop *)
(* ================================================================== *)

Module Validate.

Import Capture.

(** The assertions of the verification step, in source order. *)
Inductive Rule : Type :=
| RCapturedSome     (* expect(responses.length).toBeGreaterThan(0) *)
| RStatus           (* expect(r.status).toBe(200) *)
| RResultStatus     (* expect(resultA.status).toBe(200) *)
| RSchemaName       (* expect(typeof schemaName).toBe('string') *)
| RDataArray.       (* expect(Array.isArray(...)).toBe(true) *)

Inductive Log : Type :=
| LCount (n : nat)
| LChecking (i total : nat)
| LSkipping (i : nat)
| LStatusOk
| LResultStatusOk
| LSchemaName (v : value)
| LDataArrayOk
| LFullJson (i : nat) (j : json)
| LError (i : nat) (failed : Rule).

(** A block that writes log lines and either throws the failed
    assertion or returns. *)
Definition Try (A : Type) : Type := (list Log * (Rule + A))%type.

Definition ret {A : Type} (a : A) : Try A := ([], inr a).

Definition bind {A B : Type} (m : Try A) (k : A -> Try B) : Try B :=
  match m with
  | (l, inl e) => (l, inl e)
  | (l, inr a) => let (l', r) := k a in ((l ++ l')%list, r)
  end.

Definition log (e : Log) : Try unit := ([e], inr tt).

Definition expect (rule : Rule) (holds : bool) : Try unit :=
  if holds then ret tt else ([], inl rule).

Definition catch (m : Try unit) (handler : Rule -> Try unit) : Try unit :=
  match m with
  | (l, inl e) => let (l', r) := handler e in ((l ++ l')%list, r)
  | (l, inr a) => (l, inr a)
  end.

Notation "m ;; k" := (bind m (fun _ => k))
  (at level 61, right associativity).

(** [r.json?.results?.A] *)
Definition resultAOf (r : Captured) : value :=
  optProp (optProp (Val (c_json r)) "results") "A".

(** [resultA.frames?.[0]?.schema?.name] *)
Definition schemaNameOf (resultA : json) : value :=
  optProp (optProp (optIndex0 (prop resultA "frames")) "schema") "name".

(** [resultA.frames?.[0]?.data?.values?.[0]] *)
Definition firstColumnOf (resultA : json) : value :=
  optIndex0
    (optProp (optProp (optIndex0 (prop resultA "frames")) "data") "values").

(** Whether an assertion of the [try] block holds of a response. *)
Definition holds (rule : Rule) (r : Captured) (resultA : json) : bool :=
  match rule with
  | RCapturedSome => true
  | RStatus => (c_status r =? 200)%Z
  | RResultStatus => is200 (prop resultA "status")
  | RSchemaName => isString (schemaNameOf resultA)
  | RDataArray => isArray (firstColumnOf resultA)
  end.

(** The body of the [try]. *)
Definition tryBody (index : nat) (r : Captured) (resultA : json) : Try unit :=
  expect RStatus (c_status r =? 200)%Z ;;
  log LStatusOk ;;
  expect RResultStatus (is200 (prop resultA "status")) ;;
  log LResultStatusOk ;;
  log (LSchemaName (schemaNameOf resultA)) ;;
  expect RSchemaName (isString (schemaNameOf resultA)) ;;
  expect RDataArray (isArray (firstColumnOf resultA)) ;;
  log LDataArrayOk ;;
  log (LFullJson (index + 1) (c_json r)).

(** One iteration of the [for] loop. *)
Definition checkResponse (index total : nat) (r : Captured) : Try unit :=
  log (LChecking (index + 1) total) ;;
  match resultAOf r with
  | Val resultA =>
      if truthy (Val resultA)
      then catch (tryBody index r resultA)
                 (fun e => log (LError (index + 1) e))
      else log (LSkipping (index + 1))
  | Undefined => log (LSkipping (index + 1))
  end.

(** [for (let index = ...; index < responses.length; index++)], from
    [index] on, over the responses that remain. *)
Fixpoint loopFrom (index total : nat) (rs : list Captured) : Try unit :=
  match rs with
  | [] => ret tt
  | r :: rest => checkResponse index total r ;; loopFrom (S index) total rest
  end.

Definition inspectLoop (rs : list Captured) : Try unit :=
  loopFrom 0 (List.length rs) rs.

(** The verification step of the query-editor tests. *)
Definition verifyResponses (rs : list Captured) : Try unit :=
  expect RCapturedSome (0 <? List.length rs)%nat ;;
  log (LCount (List.length rs)) ;;
  inspectLoop rs.

(** The same step in the editor test, under [if (major >= 10)]. *)
Definition verifyResponsesIfModern (version : string) (rs : list Captured)
  : Try unit :=
  if Version.ge10 (Version.major version) then verifyResponses rs else ret tt.

(** The rules the [try] block asserts, in order. *)
Definition rules : list Rule :=
  [RStatus; RResultStatus; RSchemaName; RDataArray].

(** The rules for which a line (success or error) was written. *)
Definition reported (l : list Log) : list Rule :=
  flat_map (fun e => match e with
                     | LStatusOk => [RStatus]
                     | LResultStatusOk => [RResultStatus]
                     | LDataArrayOk => [RDataArray]
                     | LError _ rule => [rule]
                     | _ => []
                     end) l.

(** The first assertion of the [try] block that does not hold. *)
Definition firstFailure (r : Captured) (resultA : json) : option Rule :=
  find (fun rule => negb (holds rule r resultA)) rules.

(** The lines one inspected response leaves after its "Checking" line,
    told by the first assertion that fails: the lines of the assertions
    before it, then one error line, and nothing about those after it. *)
Definition linesFor (index : nat) (r : Captured) (resultA : json) : list Log :=
  match firstFailure r resultA with
  | Some RStatus =>
      [LError (index + 1) RStatus]
  | Some RResultStatus =>
      [LStatusOk; LError (index + 1) RResultStatus]
  | Some RSchemaName =>
      [LStatusOk; LResultStatusOk; LSchemaName (schemaNameOf resultA);
       LError (index + 1) RSchemaName]
  | Some RDataArray =>
      [LStatusOk; LResultStatusOk; LSchemaName (schemaNameOf resultA);
       LError (index + 1) RDataArray]
  | Some RCapturedSome => []
  | None =>
      [LStatusOk; LResultStatusOk; LSchemaName (schemaNameOf resultA);
       LDataArrayOk; LFullJson (index + 1) (c_json r)]
  end.

(** [FinalTestValidation(responses)] of the scenario scripts: it only
    writes lines. *)
Inductive FinalLog : Type :=
| LLast (j : json)
| LCompleted
| LFailedStatus (st : Z)
| LNoResponse.

Definition FinalTestValidation (rs : list Captured) : list FinalLog :=
  match rev rs with
  | [] => [LNoResponse]
  | lastResponse :: _ =>
      LLast (c_json lastResponse) ::
      (if (c_status lastResponse =? 200)%Z
       then [LCompleted]
       else [LFailedStatus (c_status lastResponse)])
  end.

End Validate.

(* ================================================================== *)
(** ** The scenario scripts *)
(* ================================================================== *)

Module Script.

Import Dom.

(** The four [page.on('response', ...)] handlers of the repository. *)
Inductive Handler : Type :=
| HScenario
| HEditor
| HQueryEditor
| HHealth.

Inductive Assertion : Type :=
| Attached (l : Locator)                       (* toBeAttached *)
| Visible (l : Locator)                        (* toBeVisible *)
| TextContains (l : Locator) (phrase : string) (* textContent, toContain *)
| HasValue (l : Locator) (text : string).      (* toHaveValue *)

(** The helpers that try several selectors in turn. *)
Inductive Helper : Type :=
| AddPanel
| MenuToggle
| DashboardsNav
| NewDashboard
| EditButton.

(** One awaited statement of a test body. *)
Inductive Op : Type :=
| OnResponse (h : Handler)
| WaitForRequest (urlPart method marker : string)
| WaitForResponse (urlPart marker : string)
| AwaitAll                           (* the await of a Promise.all *)
| Probe                              (* getGrafanaVersion(page) *)
| Goto (u : string)
| Reload
| Click (l : Locator)
| ClickRetry (l : Locator)           (* three attempts, errors swallowed *)
| Fill (l : Locator) (text : string)
| Press (l : Locator) (text : string)  (* pressSequentially *)
| Read (l : Locator)                 (* inputValue *)
| Content                            (* page.content() *)
| WaitForSelector (sel : string)
| Wait (ms : nat)                    (* page.waitForTimeout(ms) *)
| Poll (times ms : nat)              (* for (i < times) { if (responses.length > 0)
                                        break; await page.waitForTimeout(ms); } *)
| Expect (a : Assertion)
| Call (h : Helper)
| LogVisibility (label : string)     (* try { expect visible } catch { log } *)
| LogHealth                          (* if (healthResponse) log ... else log ... *)
| Inspect                            (* length check and inspection loop *)
| InspectIfModern                    (* the same step under if (major >= 10) *)
| FinalValidation                    (* FinalTestValidation(responses) *)
| ExpectPayload (marker : string)    (* parse postData, expect expr toContain *)
| ExpectBackendError.                (* error truthy, status not 200 *)

Definition host : string := "http://localhost:3000".

Definition alertInfo : Locator :=
  ByCss ("[data-testid=" ++ dq ++ "data-testid Alert info" ++ dq ++ "]").

Definition dataSourceCard : Locator :=
  ByCssText ("[data-testid=" ++ dq ++ "data-source-card" ++ dq ++ "] span")
            "test_warp10".

Definition dashboardsLink : string :=
  "a[href=" ++ dq ++ "/dashboards" ++ dq ++ "]".

Definition panelMenu : Locator :=
  ByRole "button" "Menu for panel with title Graph Example".

Definition refusal : string := "connect: connection refused".

(** The script the editor is expected to hold. *)
Definition editorScript : string :=
  "NEWGTS" ++ nl ++
  "'io.warp10.grafana.test' RENAME" ++ nl ++
  "{ 'func' 'sinus' } RELABEL" ++ nl ++
  "'sinus' STORE" ++ nl ++
  nl ++
  "NEWGTS" ++ nl ++
  "'io.warp10.grafana.testmetric' RENAME" ++ nl ++
  "{ 'func' 'cosinus' } RELABEL" ++ nl ++
  "'cosinus' STORE" ++ nl ++
  nl ++
  "$interval 20 / TOLONG 'step' STORE" ++ nl ++
  nl ++
  "<% $step + %> 'stepMacro' STORE" ++ nl ++
  "<% 'index' STORE $sinus $index NaN NaN NaN $index SIN  ADDVALUE DROP %> 'execMacroSinus' STORE" ++ nl ++
  "<% 'index' STORE $cosinus $index NaN NaN NaN $index COS  ADDVALUE DROP %> 'execMacroCoinus' STORE" ++ nl ++
  nl ++
  "$start $end $stepMacro $execMacroSinus FORSTEP" ++ nl ++
  "$start $end $stepMacro $execMacroCoinus FORSTEP" ++ nl ++
  "$sinus $cosinus".

(** The template literal [macroCode] of the macro test. *)
Definition macroCode : string :=
  "<%" ++ nl ++
  "  2 +" ++ nl ++
  "%> 'addmacro' STORE" ++ nl ++
  nl ++
  "10 32 $addmacro" ++ nl.

Definition brokenMacro : string :=
  "<%" ++ nl ++
  "  2 ++    // Invalid: " ++ dq ++ "++" ++ dq ++ " is not valid WarpScript" ++ nl ++
  "%> 'brokenmacro' STORE" ++ nl ++
  nl ++
  "10 32 $brokenmacro" ++ nl.

Definition macroMarker : string := "'addmacro' STORE".
Definition brokenMarker : string := "'brokenmacro' STORE".

(** [fillPairAndClickAdd] with an [addButton]. *)
Definition fillPairAndClickAdd (nameInput valueInput : Locator)
  (name value : string) (addButton : Locator) : list Op :=
  [ Press nameInput name; Wait 500; Read nameInput;
    Press valueInput value; Wait 500; Read valueInput;
    Click addButton; Wait 1000 ].

Definition fillConstantAndMacro : list Op :=
  (fillPairAndClickAdd (ByCss "#constant_name") (ByCss "#constant_value")
     "test_constant" "test_constant_value" (ByCss "#btn_constant")
   ++ fillPairAndClickAdd (ByCss "#macro_name") (ByCss "#macro_value")
     "test_macro" "test_macro_value" (ByCss "#btn_macro"))%list.

Definition logVisibilities : list Op :=
  [ LogVisibility "test_constant"; LogVisibility "test_constant_value";
    LogVisibility "test_macro"; LogVisibility "test_macro_value" ].

(** A script is the list of its awaited statements; the argument is the
    version string that [Probe] obtains, which later statements may
    depend on. The [page.on('console', ...)] listeners only print and
    are left out. *)
Definition Script : Type := string -> list Op.

(** senario.spec.ts, first version: constants chosen by [major < 10]. *)
Definition scenarioV1 : Script := fun version =>
  let t := targetsFor version in
  [ OnResponse HScenario;
    Probe;
    Goto (host ++ basePath t);
    Wait 1000;
    Click (ByRole "button" "Warp10");
    Fill (ByCss "#basic-settings-name") "test_warp10";
    Fill (ByCss "#url") "http://warp10:8080";
    Read (ByCss "#url");
    Click (ByRole "button" (saveButtonName t));
    Wait 1000;
    LogHealth;
    Click (ByRole "link" "Build a dashboard");
    Wait 500;
    Click (ByTestId "data-testid Create new panel button");
    Wait 500;
    Click dataSourceCard;
    Wait 500;
    Fill editor "1 2 +";
    Click runButton;
    Wait 500;
    FinalValidation;
    Goto (host ++ myDsPath t);
    Click (ByRole "link" "test_warp10");
    Wait 500;
    Click (deleteButton t);
    Click (confirmButton t) ].

(** senario.spec.ts, second version: the negative path with the wrong
    backend URL comes first; the version is only logged. *)
Definition scenarioV2 : Script := fun _ =>
  [ OnResponse HScenario;
    Probe;
    Goto (host ++ "/connections/datasources/new");
    Wait 1000;
    Click (ByRole "button" "Warp10");
    Fill (ByCss "#basic-settings-name") "test_warp10";
    Fill (ByCss "#url") "http://localhost:9999";
    Click (ByRole "button" "Save & test");
    Expect (Visible alertInfo);
    Expect (TextContains alertInfo refusal);
    Fill (ByCss "#url") "http://warp10:8080";
    Read (ByCss "#url");
    Wait 1000;
    Click (ByRole "button" "Save & test");
    Wait 1000;
    LogHealth;
    Click (ByRole "link" "Build a dashboard");
    Wait 500;
    Call AddPanel;
    Wait 500;
    Click dataSourceCard;
    Wait 500;
    Fill editor "1 2 +";
    Click runButton;
    Wait 500;
    FinalValidation;
    Goto (host ++ "/connections/datasources");
    Click (ByRole "link" "test_warp10");
    Wait 500;
    Click (ByTestId "Data source settings page Delete button");
    Click (ByTestId "data-testid Confirm Modal Danger Button") ].

(** query-editor.spec.ts *)
Definition queryEditorTest : Script := fun _ =>
  [ OnResponse HQueryEditor;
    Goto host;
    Expect (Attached editor);
    Expect (Visible editor);
    Wait 3000;
    Inspect;
    Expect (HasValue editor editorScript) ].

Definition openPanelEditor : list Op :=
  [ Goto host;
    WaitForSelector "#mega-menu-toggle";
    Wait 500;
    Click (ByRole "button" "Open menu");
    WaitForSelector dashboardsLink;
    Click (Within (ByTestId "data-testid navigation mega-menu")
                  (ByRole "link" "Dashboards"));
    Click (ByRole "link" "New dashboard");
    Click panelMenu;
    Click (ByRole "link" "Edit");
    Expect (Attached editor);
    Expect (Visible editor);
    Wait 3000;
    Inspect;
    Expect (HasValue editor editorScript) ].

(** The query-editor test that walks through the menu. *)
Definition queryEditorMenuTest : Script := fun _ =>
  (OnResponse HQueryEditor :: openPanelEditor)%list.

(** editor_test.spec.ts: on a host with [major >= 10] the test waits
    three seconds, polls for a first response, and verifies what was
    captured; on other hosts it does none of the three. *)
Definition editorTest : Script := fun version =>
  ([ OnResponse HEditor;
     Goto host;
     Probe;
     Call MenuToggle;
     Wait 500;
     WaitForSelector dashboardsLink;
     Call DashboardsNav;
     Wait 500;
     Call NewDashboard;
     Click panelMenu;
     Call EditButton;
     Expect (Attached editor);
     Expect (Visible editor) ]
   ++ (if Version.ge10 (Version.major version)
       then [ Wait 3000; Poll 10 500 ]
       else [])
   ++ [ InspectIfModern;
        Expect (HasValue editor editorScript) ])%list.

(** datasource_test.spec.ts: the configuration form. *)
Definition datasourceTest : Script := fun version =>
  let legacy := Version.lt10 (Version.major version) in
  let save := ByRole "button"
                (if legacy
                 then "Data source settings page Save and Test button"
                 else "Save & test") in
  ([ OnResponse HScenario;
     Probe;
     Goto (host ++ (if legacy
                    then "/connections/your-connections/datasources/new"
                    else "/connections/datasources/new"));
     Wait 1000;
     Click (ByRole "button" "Warp10");
     Fill (ByCss "#basic-settings-name") "test_warp10";
     Fill (ByCss "#url") "http://warp10:8080";
     Read (ByCss "#url");
     Click save;
     Wait 1000;
     LogHealth ]
   ++ fillConstantAndMacro
   ++ [ Click save;
        Wait 1000;
        Reload;
        Wait 2000 ]
   ++ logVisibilities
   ++ [ Click (if legacy
               then ByRole "button" "Data source settings page Delete button"
               else ByTestId "Data source settings page Delete button");
        Click (if legacy
               then ByRole "button" "Confirm Modal Danger Button"
               else ByTestId "data-testid Confirm Modal Danger Button") ])%list.

Definition provisioned : Locator := ByRole "link" "Warp10-Clever-Cloud".

Definition addButtons : Locator :=
  ByCss ("button:has-text(" ++ dq ++ "Add" ++ dq ++ ")").

(** The health check of the provisioned datasource, with constants. *)
Definition healthCheckWithConstants : Script := fun _ =>
  ([ OnResponse HHealth;
     Goto (host ++ "/connections/datasources");
     Click provisioned;
     Wait 1000;
     ClickRetry (ByRole "button" "Test");
     Wait 1000;
     LogHealth ]
   ++ fillPairAndClickAdd (Nth (ByCss "input:enabled") 2)
        (Nth (ByCss "textarea:enabled") 0)
        "test_constant" "test_constant_value" (Nth addButtons 0)
   ++ fillPairAndClickAdd (Nth (ByCss "input:enabled") 3)
        (Nth (ByCss "textarea:enabled") 1)
        "test_macro" "test_macro_value" (Nth addButtons 1)
   ++ [ Click (ByRole "button" "Test");
        Wait 1000;
        Goto (host ++ "/connections/datasources");
        Click provisioned;
        Wait 2000;
        Content;
        Expect (Visible (ByText "test_constant"));
        Expect (Visible (ByText "test_constant_value")) ])%list.

(** The health check of the provisioned datasource alone. *)
Definition healthCheck : Script := fun _ =>
  [ OnResponse HHealth;
    Goto (host ++ "/connections/datasources");
    Click provisioned;
    Wait 500;
    ClickRetry (ByRole "button" "Test");
    Wait 1000;
    LogHealth ].

(** The macro test: a valid macro, then a broken one. *)
Definition macrosTest : Script := fun _ =>
  [ Probe;
    Goto (host ++ "/dashboards");
    Wait 1000;
    Call NewDashboard;
    Click panelMenu;
    Call EditButton;
    Expect (Attached editor);
    Expect (Visible editor);
    Fill editor macroCode;
    WaitForRequest "/api/ds/query" "POST" macroMarker;
    Click runButton;
    AwaitAll;
    ExpectPayload macroMarker;
    Fill editor brokenMacro;
    WaitForRequest "/api/ds/query" "POST" brokenMarker;
    WaitForResponse "/api/ds/query" brokenMarker;
    Click runButton;
    AwaitAll;
    ExpectBackendError ].

(** The combined test: the query editor, then the configuration form. *)
Definition pluginTest : Script := fun _ =>
  (OnResponse HQueryEditor :: openPanelEditor
   ++ [ OnResponse HHealth;
        Goto (host ++ "/connections/datasources/new");
        Wait 1000;
        Click (ByRole "button" "Warp10");
        Fill (ByCss "#basic-settings-name") "test_warp10";
        Fill (ByCss "#url") "http://warp10:8080";
        Read (ByCss "#url");
        Click (ByRole "button" "Save & test");
        Wait 1000;
        LogHealth ]
   ++ fillConstantAndMacro
   ++ [ Click (ByRole "button" "Save & test");
        Wait 1000;
        Reload;
        Wait 2000 ]
   ++ logVisibilities
   ++ [ Click (ByTestId "Data source settings page Delete button");
        Click (ByTestId "data-testid Confirm Modal Danger Button") ])%list.

Definition allScripts : list Script :=
  [ scenarioV1; scenarioV2; queryEditorTest; queryEditorMenuTest;
    editorTest; datasourceTest; healthCheckWithConstants; healthCheck;
    macrosTest; pluginTest ].

End Script.

(* ================================================================== *)
(** ** Running a script *)
(* ================================================================== *)

Module Run.

Import Dom Script.

(** What the browser and the host answer during one run. Positions
    count the statements of the script from [0]. *)
Record Env : Type := mkEnv {
  version : string;                        (* body.version of /api/health *)
  resolves : nat -> bool;                  (* the awaited call at this
                                              position resolves (true) or
                                              throws *)
  visible : nat -> Locator -> bool;        (* toBeVisible within its timeout *)
  textOf : nat -> Locator -> option string;  (* textContent(): null is None *)
  valueOf : nat -> Locator -> string;      (* the value toHaveValue reads *)
  view : nat -> PageView;                  (* the page under page.$ *)
  arrivals : nat -> list Capture.Response  (* responses whose body settles
                                              while this statement is
                                              awaited, in that order *)
}.

(** The host side and the page state the datasource surface acts on.
    The surface is create (on save, under the name typed in the form)
    and a two-step delete (initiate, confirm) of the datasource whose
    page is open. *)
Record Ui : Type := mkUi {
  datasources : list string;     (* the names of the host's datasources *)
  nameField : string;            (* the content of #basic-settings-name *)
  onList : bool;                 (* the datasource list is shown *)
  opened : option string;        (* the datasource whose page is open *)
  deleting : bool                (* a delete awaits its confirmation *)
}.

(** The world of one run: the host and page, the listeners attached so
    far, and the variables the listeners write. *)
Record World : Type := mkWorld {
  ui : Ui;
  handlers : list Handler;
  cap : Capture.State
}.

Definition handlerOf (h : Handler)
  : Capture.Response -> Capture.State -> Capture.State :=
  match h with
  | HScenario => Capture.scenarioHandler
  | HEditor => Capture.editorHandler
  | HQueryEditor => Capture.queryEditorHandler
  | HHealth => Capture.healthHandler
  end.

(** One response goes to every listener that is attached. *)
Definition dispatch (hs : list Handler) (r : Capture.Response)
  (s : Capture.State) : Capture.State :=
  fold_left (fun acc h => handlerOf h r acc) hs s.

Definition receive (events : list Capture.Response) (w : World) : World :=
  mkWorld (ui w) (handlers w)
          (fold_left (fun acc r => dispatch (handlers w) r acc) events (cap w)).

Definition hasName (n : string) (ds : list string) : bool :=
  existsb (String.eqb n) ds.

Definition addName (n : string) (ds : list string) : list string :=
  if hasName n ds then ds else (ds ++ [n])%list.

Definition removeName (n : string) (ds : list string) : list string :=
  filter (fun x => negb (String.eqb x n)) ds.

Definition asValue (t : option string) : value :=
  match t with
  | Some s => Val (JStr s)
  | None => Val JNull
  end.

Definition returns {A : Type} (t : Validate.Try A) : bool :=
  match snd t with
  | inr _ => true
  | inl _ => false
  end.

(** Whether the statement at position [i] resolves rather than throws. *)
Definition passes (env : Env) (i : nat) (op : Op) (w : World) : bool :=
  match op with
  | OnResponse _ => true
  | Wait _ => true
  | Poll _ _ => true
  | ClickRetry _ => true
  | LogVisibility _ => true
  | LogHealth => true
  | FinalValidation => true
  | Expect (Visible l) => visible env i l
  | Expect (TextContains l phrase) =>
      resolves env i && toContain (asValue (textOf env i l)) phrase
  | Expect (HasValue l text) => String.eqb (valueOf env i l) text
  | Expect (Attached _) => resolves env i
  | Call AddPanel =>
      match clickAddPanelButton (view env i) with
      | Clicked _ => true
      | _ => false
      end
  | Inspect =>
      returns (Validate.verifyResponses (Capture.responses (cap w)))
  | InspectIfModern =>
      returns (Validate.verifyResponsesIfModern (version env)
                 (Capture.responses (cap w)))
  | _ => resolves env i
  end.

(** The datasource list is at a path that ends in [/datasources]. *)
Definition isListUrl (u : string) : bool :=
  includes u "/datasources" && negb (includes u "/datasources/").

(** What a resolved statement changes on the host and the page: typing
    the name, saving, following a datasource's link on the list,
    initiating a delete and confirming it. Names stand for datasources:
    a save under a name that the host already holds leaves the list as
    it is, and what the host answers to such a save is not followed, so
    a run says what happens on a real host when the name typed is free
    at the start. *)
Definition uiEffect (op : Op) (u : Ui) : Ui :=
  match op with
  | Goto url =>
      mkUi (datasources u) (nameField u) (isListUrl url) None false
  | Fill l text =>
      if isNameField l
      then mkUi (datasources u) text (onList u) (opened u) (deleting u)
      else u
  | Click l =>
      if isSaveButton l then
        mkUi (addName (nameField u) (datasources u)) (nameField u)
             false (Some (nameField u)) false
      else if isDeleteButton l then
        mkUi (datasources u) (nameField u) (onList u) (opened u) true
      else if isConfirmButton l then
        match deleting u, opened u with
        | true, Some n =>
            mkUi (removeName n (datasources u)) (nameField u) false None false
        | _, _ => u
        end
      else
        match l with
        | ByRole role name =>
            if String.eqb role "link" && onList u
               && hasName name (datasources u)
            then mkUi (datasources u) (nameField u) false (Some name) false
            else u
        | _ => u
        end
  | _ => u
  end.

(** What a resolved statement changes. *)
Definition effect (op : Op) (w : World) : World :=
  mkWorld (uiEffect op (ui w))
          (match op with
           | OnResponse h => (handlers w ++ [h])%list
           | _ => handlers w
           end)
          (cap w).

Inductive Outcome : Type :=
| Completed
| Failed (at_position : nat).

(** The statements run in order; the first that throws ends the test. *)
Fixpoint runFrom (env : Env) (i : nat) (ops : list Op) (w : World)
  : Outcome * World :=
  match ops with
  | [] => (Completed, w)
  | op :: rest =>
      if passes env i op w
      then runFrom env (S i) rest (receive (arrivals env i) (effect op w))
      else (Failed i, w)
  end.

(** The same when no statement throws. *)
Fixpoint runAll (env : Env) (i : nat) (ops : list Op) (w : World) : World :=
  match ops with
  | [] => w
  | op :: rest => runAll env (S i) rest (receive (arrivals env i) (effect op w))
  end.

(** A fresh page on a host that holds the datasources [ds]. *)
Definition fresh (ds : list string) : World :=
  mkWorld (mkUi ds EmptyString false None false) [] Capture.init.

Definition runTest (env : Env) (script : Script) (ds : list string)
  : Outcome * World :=
  runFrom env 0 (script (version env)) (fresh ds).

(** The statements of the second scenario up to the assertion on the
    alert text: the negative path with the wrong backend URL. *)
Definition negativePath : list Op := firstn 10 (scenarioV2 EmptyString).


(** The same environment with other network arrivals. *)
Definition withArrivals (env : Env)
  (arrivals' : nat -> list Capture.Response) : Env :=
  mkEnv (version env) (resolves env) (visible env) (textOf env)
        (valueOf env) (view env) arrivals'.

End Run.

(* ================================================================== *)
(** ** The macro test *)
(* ================================================================== *)

Module Macro.

Import Script.

(** A request as [page.waitForRequest] sees it. [parsed] is what
    [JSON.parse(postData)] gives: [None] when it throws. *)
Record Request : Type := mkRequest {
  r_url : string;
  r_method : string;
  postData : option string;
  parsed : option json
}.

(** The predicate given to [page.waitForRequest]. *)
Definition requestPredicate (marker : string) (req : Request) : bool :=
  includes (r_url req) "/api/ds/query"
  && String.eqb (r_method req) "POST"
  && match postData req with
     | Some data => negb (String.eqb data EmptyString) && includes data marker
     | None => false
     end.

(** [macroPayload.queries?.[0]?.expr] *)
Definition exprOf (payload : json) : value :=
  optProp (optIndex0 (prop payload "queries")) "expr".

Inductive Result : Type :=
| Passed (req : Request)
| TimedOut
| Threw
| ExpectFailed.

(** The positive part: wait for the first request, among those issued
    once the waiter is set up, that satisfies the predicate; parse its
    post data; expect the first query's [expr] to contain the marker. *)
Definition positiveMacroTest (requests : list Request) : Result :=
  match find (requestPredicate macroMarker) requests with
  | None => TimedOut
  | Some req =>
      match parsed req with
      | None => Threw
      | Some JNull => Threw
      | Some payload =>
          if toContain (exprOf payload) macroMarker
          then Passed req
          else ExpectFailed
      end
  end.

(** The macro definition as the specification quotes it. *)
Definition quotedMacro : string := "<% 2 + %> 'addmacro' STORE".

End Macro.

(* ================================================================== *)
(** ** Timestamps *)
(* ================================================================== *)

Module Timestamp.

(** Modelled from the spec: the conversion of Warp10 timestamps
    (microseconds) into the milliseconds of a response frame, and the
    test bed that checks it ([Warp10_test.spec.ts]), are not among the
    sources; the documentation only says that timestamps given in
    microseconds come back in milliseconds. The specification's law is
    [floor(source / 1000)]. *)
Definition toMillis (us : Z) : Z := (us / 1000)%Z.

(** Rounding to the nearest millisecond, which the law excludes. *)
Definition roundedMillis (us : Z) : Z := ((us + 500) / 1000)%Z.

End Timestamp.

(* ================================================================== *)
(** ** Listeners and the statements that set exchanges off *)
(* ================================================================== *)

Module Arming.

Import Dom Script.

(** What a listener or a waiter is set up for. *)
Inductive Filter : Type :=
| FQuery                       (* POST responses of /api/ds/query *)
| FWarp10Query                 (* the same, of the plugin's type *)
| FHealth                      (* responses of a datasource health check *)
| FRequest (marker : string)   (* a query request carrying the marker *)
| FResponse (marker : string). (* the response to such a request *)

Definition filter_eqb (a b : Filter) : bool :=
  match a, b with
  | FQuery, FQuery => true
  | FWarp10Query, FWarp10Query => true
  | FHealth, FHealth => true
  | FRequest m, FRequest m' => String.eqb m m'
  | FResponse m, FResponse m' => String.eqb m m'
  | _, _ => false
  end.

(** The filters a statement sets up. *)
Definition arms (op : Op) : list Filter :=
  match op with
  | OnResponse HScenario => [FQuery; FHealth]
  | OnResponse HEditor => [FQuery]
  | OnResponse HQueryEditor => [FWarp10Query]
  | OnResponse HHealth => [FHealth]
  | WaitForRequest _ _ marker => [FRequest marker]
  | WaitForResponse _ marker => [FResponse marker]
  | _ => []
  end.


(** Statements that act on the page. *)
Definition drivesPage (op : Op) : bool :=
  match op with
  | Goto _ | Reload | Click _ | ClickRetry _ | Fill _ _ | Press _ _
  | Call _ => true
  | _ => false
  end.

(** The editor's content after a statement. *)
Definition editorAfter (editorText : string) (op : Op) : string :=
  match op with
  | Fill l text => if isEditor l then text else editorText
  | _ => editorText
  end.


(** Which statements can set off an exchange that a filter matches.
    The scripts do not say which statement makes the host issue which
    exchange, so no statement that acts on the page is excluded, for
    any filter; the one thing taken into account is that a request can
    carry a marker only when the editor holds it, the statement's own
    effect on the editor included. *)
Definition canTrigger (editorText : string) (op : Op) (f : Filter) : bool :=
  drivesPage op
  && match f with
     | FRequest marker | FResponse marker =>
         includes (editorAfter editorText op) marker
     | _ => true
     end.

Definition armedIn (ops : list Op) : list Filter := flat_map arms ops.

Definition isArmed (f : Filter) (armed : list Filter) : bool :=
  existsb (filter_eqb f) armed.

(** Going through the statements with the filters set up so far: every
    statement that can set off an exchange for a filter the script
    sets up finds it set up already. *)
Fixpoint raceFree (armed : list Filter) (editorText : string)
  (wanted : list Filter) (ops : list Op) : bool :=
  match ops with
  | [] => true
  | op :: rest =>
      forallb (fun f => negb (canTrigger editorText op f) || isArmed f armed)
              wanted
      && raceFree (arms op ++ armed)%list (editorAfter editorText op)
                  wanted rest
  end.

(** The panel the scripts open holds [editorScript] to begin with. *)
Definition armedBeforeTriggers (ops : list Op) : bool :=
  raceFree [] editorScript (armedIn ops) ops.

(** The same walk, keeping what it finds: the positions of the
    statements that can set off an exchange for a filter of the script
    that is not set up yet, each with that filter. *)
Fixpoint unarmedFrom (i : nat) (armed : list Filter) (editorText : string)
  (wanted : list Filter) (ops : list Op) : list (nat * Filter) :=
  match ops with
  | [] => []
  | op :: rest =>
      (map (fun f => (i, f))
           (filter (fun f => canTrigger editorText op f
                             && negb (isArmed f armed)) wanted)
       ++ unarmedFrom (S i) (arms op ++ armed) (editorAfter editorText op)
                      wanted rest)%list
  end.

Definition unarmedTriggers (ops : list Op) : list (nat * Filter) :=
  unarmedFrom 0 [] editorScript (armedIn ops) ops.


End Arming.

(* ================================================================== *)
(** ** Sample exchanges and environments *)
(* ================================================================== *)

Module Samples.

Import Capture.

(** A response that matches the query filter and is not JSON. *)
Definition garbled : Response :=
  mkResponse "http://localhost:3000/api/ds/query?ds_type=clevercloud-warp10-datasource"
             "POST" 200 None.

(** The same exchange with a JSON body. *)
Definition answered (j : json) : Response :=
  mkResponse "http://localhost:3000/api/ds/query?ds_type=clevercloud-warp10-datasource"
             "POST" 200 (Some j).

(** An exchange no filter matches. *)
Definition unrelated : Response :=
  mkResponse "http://localhost:3000/api/dashboards/home" "GET" 200
             (Some (JObj [])).


Definition queryUrl : string :=
  "http://localhost:3000/api/ds/query?ds_type=clevercloud-warp10-datasource".

(** A frame with a named schema and one column of values. *)
Definition frame : json :=
  JObj [ ("schema", JObj [("name", JStr "sinus")]);
         ("data", JObj [("values", JArr [JArr [JNum 1; JNum 2]])]) ].

(** A well-formed query answer. *)
Definition good : Captured :=
  mkCaptured queryUrl
    (JObj [("results",
            JObj [("A", JObj [("status", JNum 200);
                              ("frames", JArr [frame])])])])
    200.

(** An answer on which every assertion of the [try] block fails: the
    HTTP status is 500, the embedded status is 500, and there is no
    frame. *)
Definition allWrong : Captured :=
  mkCaptured queryUrl
    (JObj [("results", JObj [("A", JObj [("status", JNum 500)])])])
    500.

(** An answer with a wrong embedded status only. *)
Definition innerError : Captured :=
  mkCaptured queryUrl
    (JObj [("results",
            JObj [("A", JObj [("status", JNum 400);
                              ("error", JStr "Unknown function");
                              ("frames", JArr [frame])])])])
    200.

(** An answer whose body has no [results.A]. *)
Definition noResultA : Captured :=
  mkCaptured queryUrl (JObj [("results", JObj [])]) 500.


Definition healthExchange (report : json) : Response :=
  mkResponse "http://localhost:3000/api/datasources/uid/warp10/health"
             "GET" 200 (Some report).

Definition everythingThere : Dom.PageView :=
  Dom.mkPageView (fun _ => true) (fun _ => true).

(** A run in which every call resolves, the alert shows the refusal,
    and nothing arrives from the network. *)
Definition calm : Run.Env :=
  Run.mkEnv "10.4.1" (fun _ => true) (fun _ _ => true)
    (fun _ _ => Some "Plugin health check failed: dial tcp [::1]:9999: connect: connection refused")
    (fun _ _ => Script.editorScript)
    (fun _ => everythingThere)
    (fun _ => []).

(** The same run, except that the alert shows another text. *)
Definition otherAlert : Run.Env :=
  Run.mkEnv "10.4.1" (fun _ => true) (fun _ _ => true)
    (fun _ _ => Some "Datasource updated")
    (fun _ _ => Script.editorScript)
    (fun _ => everythingThere)
    (fun _ => []).

(** The calm run, except that the click on the run button (statement
    23 of the second scenario) throws. *)
Definition runButtonStuck : Run.Env :=
  Run.mkEnv "10.4.1" (fun i => negb (i =? 23)%nat) (fun _ _ => true)
    (fun _ _ => Some "Plugin health check failed: dial tcp [::1]:9999: connect: connection refused")
    (fun _ _ => Script.editorScript)
    (fun _ => everythingThere)
    (fun _ => []).


(** A page on which only the last selector of [clickAddPanelButton]
    finds an element. *)
Definition onlyAddVisualization : Dom.PageView :=
  Dom.mkPageView
    (fun sel => String.eqb sel
                  ("button:has-text(" ++ dq ++ "Add visualization" ++ dq ++ ")"))
    (fun _ => true).


(** The payload of the query request for the macro script, and its
    text as sent: within a JSON string the line feeds of the script are
    written as a backslash and the letter n. *)
Definition macroPayload : json :=
  JObj [("queries",
         JArr [JObj [("refId", JStr "A");
                     ("expr", JStr Script.macroCode)]])].

Definition macroPostData : string :=
  "{" ++ dq ++ "queries" ++ dq ++ ":[{"
  ++ dq ++ "refId" ++ dq ++ ":" ++ dq ++ "A" ++ dq ++ ","
  ++ dq ++ "expr" ++ dq ++ ":" ++ dq
  ++ "<%\n  2 +\n%> 'addmacro' STORE\n\n10 32 $addmacro\n"
  ++ dq ++ "}]}".

Definition sentMacro : Macro.Request :=
  Macro.mkRequest queryUrl "POST" (Some macroPostData) (Some macroPayload).

(** A request of the dashboard's own query, issued before the macro's. *)
Definition sentOther : Macro.Request :=
  Macro.mkRequest queryUrl "POST"
    (Some ("{" ++ dq ++ "queries" ++ dq ++ ":[]}"))
    (Some (JObj [("queries", JArr [])])).

End Samples.

(* ================================================================== *)
(** ** Health reports, and what the handlers share *)
(* ================================================================== *)

Module Reports.

Import Capture.

(** The health reports of a sequence of responses: the parsed bodies of
    those the health filter matches, in order. *)
Definition healthBodies (events : list Response) : list json :=
  flat_map (fun r => if isHealth r
                     then match body r with
                          | Some j => [j]
                          | None => []
                          end
                     else []) events.

(** The last of a list of reports, or what was there before. *)
Definition lastReport (before : option json) (reports : list json)
  : option json :=
  last (map Some reports) before.

(** An entry whose URL names the plugin's type. *)
Definition ofPlugin (c : Captured) : bool :=
  includes (c_url c) "ds_type=clevercloud-warp10-datasource".

(** [if (healthResponse) log(passed, message) else log(not received)],
    as the scenario and datasource tests write it after a save. *)
Inductive HealthLine : Type :=
| LHealthPassed (message : value)
| LHealthMissing.

Definition logHealth (healthResponse : option json) : HealthLine :=
  match healthResponse with
  | Some report =>
      if truthy (Val report)
      then LHealthPassed (prop report "message")
      else LHealthMissing
  | None => LHealthMissing
  end.

End Reports.

(* ================================================================== *)
(** ** Lines of the inspection loop *)
(* ================================================================== *)

Module Lines.

Import Validate.

(** The "Checking response [i/total]" lines of a log. *)
Definition announced (l : list Log) : list (nat * nat) :=
  flat_map (fun e => match e with
                     | LChecking i total => [(i, total)]
                     | _ => []
                     end) l.

(** The error lines of a log, by response number. *)
Definition errors (l : list Log) : list nat :=
  flat_map (fun e => match e with
                     | LError i _ => [i]
                     | _ => []
                     end) l.

End Lines.

(* ================================================================== *)
(** ** The retried click of the health-check tests *)
(* ================================================================== *)

Module Retry.

Inductive Line : Type :=
| LNotClicked          (* log('Button not clicked') *)
| LWaited (ms : nat).  (* page.waitForTimeout(ms) *)

(** What the loop leaves: the attempt whose click resolved, if any, the
    value of [attempts] afterwards, and the lines written. *)
Record Result : Type := mkResult {
  clickedAt : option nat;
  attemptsAfter : nat;
  lines : list Line
}.

(** [while (attempts++ < 3) { try { await click(); break; }
                              catch { log(...); await wait(1000); } }]
    with [clickOk k] telling whether the click of attempt [k] (the
    value of [attempts] inside the body) resolves. [None] is a loop
    that has not ended within the fuel. *)
Fixpoint retryLoop (clickOk : nat -> bool) (attempts fuel : nat)
  : option Result :=
  match fuel with
  | O => None
  | S fuel' =>
      if (attempts <? 3)%nat then
        if clickOk (S attempts)
        then Some (mkResult (Some (S attempts)) (S attempts) [])
        else
          match retryLoop clickOk (S attempts) fuel' with
          | Some r =>
              Some (mkResult (clickedAt r) (attemptsAfter r)
                             (LNotClicked :: LWaited 1000 :: lines r))
          | None => None
          end
      else Some (mkResult None (S attempts) [])
  end.

(** [let attempts = 0; while ...] *)
Definition clickRetry (clickOk : nat -> bool) (fuel : nat) : option Result :=
  retryLoop clickOk 0 fuel.

End Retry.

(* ================================================================== *)
(** ** Helpers that look for one of several elements *)
(* ================================================================== *)

Module Nav.

Import Dom.

Fixpoint locator_eqb (a b : Locator) : bool :=
  match a, b with
  | ByRole r n, ByRole r' n' => String.eqb r r' && String.eqb n n'
  | ByTestId i, ByTestId i' => String.eqb i i'
  | ByCss s, ByCss s' => String.eqb s s'
  | ByCssText s t, ByCssText s' t' => String.eqb s s' && String.eqb t t'
  | ByText t, ByText t' => String.eqb t t'
  | Within o i, Within o' i' => locator_eqb o o' && locator_eqb i i'
  | Nth l n, Nth l' n' => locator_eqb l l' && (n =? n')%nat
  | _, _ => false
  end.

(** What the helpers ask of the page. *)
Record PageState : Type := mkPageState {
  count : Locator -> nat;        (* await l.count() *)
  shown : Locator -> bool;       (* await l.isVisible() *)
  clickable : Locator -> bool    (* await l.click() resolves *)
}.

Inductive Outcome : Type :=
| Returned
| ClickFailed (l : Locator)      (* the click itself threw *)
| NotFoundError.                 (* throw new Error(...) *)

(** [await l.count() > 0 && await l.first().isVisible()] *)
Definition available (p : PageState) (l : Locator) : bool :=
  (0 <? count p l)%nat && shown p (Nth l 0).

Definition directNewDashboard : Locator :=
  ByCssText ("a[href*=" ++ dq ++ "/new-dashboard" ++ dq ++ "]") "New dashboard".

Definition generalLink : Locator := ByText "General".

Definition nestedNewDashboard : Locator := ByText "New dashboard".

(** [goToNewDashboard(page)]: the elements clicked, in order, and how
    the call ends. [p] is the page as the call finds it, [opened] the
    page once the "General" section has been clicked. *)
Definition goToNewDashboard (p opened : PageState)
  : list Locator * Outcome :=
  if available p directNewDashboard then
    if clickable p (Nth directNewDashboard 0)
    then ([Nth directNewDashboard 0], Returned)
    else ([], ClickFailed (Nth directNewDashboard 0))
  else if available p generalLink then
    if clickable p (Nth generalLink 0) then
      if available opened nestedNewDashboard then
        if clickable opened (Nth nestedNewDashboard 0)
        then ([Nth generalLink 0; Nth nestedNewDashboard 0], Returned)
        else ([Nth generalLink 0], ClickFailed (Nth nestedNewDashboard 0))
      else ([Nth generalLink 0], NotFoundError)
    else ([], ClickFailed (Nth generalLink 0))
  else ([], NotFoundError).

Definition editLink : Locator := ByRole "link" "Edit".

Definition editMenuItem : Locator :=
  ByCss ("button[role=" ++ dq ++ "menuitem" ++ dq ++ "]:has-text("
         ++ dq ++ "Edit" ++ dq ++ ")").

(** [clickEditButton(page)] *)
Definition clickEditButton (p : PageState) : list Locator * Outcome :=
  if available p editLink then
    if clickable p (Nth editLink 0)
    then ([Nth editLink 0], Returned)
    else ([], ClickFailed (Nth editLink 0))
  else if available p editMenuItem then
    if clickable p (Nth editMenuItem 0)
    then ([Nth editMenuItem 0], Returned)
    else ([], ClickFailed (Nth editMenuItem 0))
  else ([], NotFoundError).

End Nav.

(* ================================================================== *)
(** ** The negative part of the macro test *)
(* ================================================================== *)

Module MacroNegative.

Import Script Macro.

(** A response as [page.waitForResponse] sees it: its URL, the request
    it answers, and what [await response.json()] gives. *)
Record Answer : Type := mkAnswer {
  a_url : string;
  a_request : Request;
  a_json : option json
}.

(** The predicate given to [page.waitForResponse]. *)
Definition answerPredicate (marker : string) (a : Answer) : bool :=
  includes (a_url a) "/api/ds/query"
  && match postData (a_request a) with
     | Some data => negb (String.eqb data EmptyString) && includes data marker
     | None => false
     end.

Inductive Result : Type :=
| Passed (a : Answer)
| TimedOut        (* a waiter was not satisfied *)
| Threw           (* the click, json() or a property access threw *)
| ExpectFailed.

(** [errorResult.results?.A?.error] *)
Definition errorOf (errorResult : json) : value :=
  optProp (optProp (prop errorResult "results") "A") "error".

(** [errorResult.results.A.status], read once the expectation on the
    error has passed (so that [results.A] is an object). *)
Definition statusOf (errorResult : json) : value :=
  optProp (optProp (prop errorResult "results") "A") "status".

(** The negative part: both waiters and the click, then the two
    expectations on the parsed answer. *)
Definition negativeMacroTest (requests : list Request)
  (answers : list Answer) (clickResolves : bool) : Result :=
  if clickResolves then
    match find (requestPredicate brokenMarker) requests,
          find (answerPredicate brokenMarker) answers with
    | Some _, Some a =>
        match a_json a with
        | None => Threw
        | Some JNull => Threw
        | Some errorResult =>
            if truthy (errorOf errorResult)
            then if is200 (statusOf errorResult)
                 then ExpectFailed
                 else Passed a
            else ExpectFailed
        end
    | _, _ => TimedOut
    end
  else Threw.

End MacroNegative.

(* ================================================================== *)
(** ** Version strings written out *)
(* ================================================================== *)

Module Printing.

(** The decimal numeral of a natural number. *)
Definition showNat (n : nat) : string :=
  DecimalString.NilEmpty.string_of_uint (Nat.to_uint n).

(** A version string with major component [n]. *)
Definition versionWithMajor (n : nat) (rest : string) : string :=
  showNat n ++ "." ++ rest.

End Printing.

(* ================================================================== *)
(** ** Which statements read the buffer *)
(* ================================================================== *)

Module Reads.

Import Script.

(** The statements whose outcome depends on what the handlers have
    captured: the verification step, and in the editor test only on a
    host whose major version is at least 10. *)
Definition readsBuffer (version : string) (op : Op) : bool :=
  match op with
  | Inspect => true
  | InspectIfModern => Version.ge10 (Version.major version)
  | _ => false
  end.

(** The arrivals of the statements at positions [i], [i+1], ...,
    [i+n-1], in order. *)
Fixpoint arrivalsBetween (env : Run.Env) (i n : nat)
  : list Capture.Response :=
  match n with
  | O => []
  | S n' => (Run.arrivals env i ++ arrivalsBetween env (S i) n')%list
  end.

End Reads.

(* ================================================================== *)
(** ** More sample pages and exchanges *)
(* ================================================================== *)

Module MoreSamples.

Import Capture Samples.

(** A health report of the error shape. *)
Definition errorReport : json :=
  JObj [("status", JStr "ERROR");
        ("message", JStr "dial tcp: connect: connection refused")].

(** A health exchange whose body is not JSON. *)
Definition garbledHealth : Response :=
  mkResponse "http://localhost:3000/api/datasources/uid/warp10/health"
             "GET" 502 None.

(** A query of another datasource type. *)
Definition otherPlugin : Response :=
  mkResponse "http://localhost:3000/api/ds/query?ds_type=prometheus"
             "POST" 200 (Some (JObj [])).

(** A page that shows only the "General" section, and the same page
    once the section is open. *)
Definition onlyGeneral : Nav.PageState :=
  Nav.mkPageState
    (fun l => if Nav.locator_eqb l Nav.generalLink then 1%nat else 0%nat)
    (fun _ => true) (fun _ => true).

Definition generalOpen : Nav.PageState :=
  Nav.mkPageState (fun _ => 1%nat) (fun _ => true) (fun _ => true).

(** A page whose panel menu offers "Edit" as a menu item only. *)
Definition menuItemOnly : Nav.PageState :=
  Nav.mkPageState
    (fun l => if Nav.locator_eqb l Nav.editMenuItem then 1%nat else 0%nat)
    (fun _ => true) (fun _ => true).

(** The request for the broken macro and the answer of the backend. *)
Definition sentBroken : Macro.Request :=
  Macro.mkRequest queryUrl "POST"
    (Some ("{" ++ dq ++ "queries" ++ dq ++ ":[{" ++ dq ++ "expr" ++ dq ++ ":"
           ++ dq ++ "<%\n  2 ++    // Invalid: \" ++ dq ++ "++\" ++ dq
           ++ " is not valid WarpScript\n%> 'brokenmacro' STORE\n\n10 32 $brokenmacro\n"
           ++ dq ++ "}]}"))
    (Some (JObj [("queries",
                  JArr [JObj [("expr", JStr Script.brokenMacro)]])])).

Definition brokenAnswer : MacroNegative.Answer :=
  MacroNegative.mkAnswer queryUrl sentBroken
    (Some (JObj [("results",
                  JObj [("A", JObj [("error", JStr "Unknown function ++");
                                    ("status", JNum 400)])])])).

(** An environment of a legacy host in which every call resolves and
    nothing arrives. *)
Definition legacyCalm : Run.Env :=
  Run.mkEnv "9.5.2" (fun _ => true) (fun _ _ => true)
    (fun _ _ => Some "Datasource updated")
    (fun _ _ => Script.editorScript)
    (fun _ => everythingThere)
    (fun _ => []).

(** The calm run in which the plugin's query answer arrives while the
    page is loading (statement 1). *)
Definition answeredEarly : Run.Env :=
  Run.withArrivals calm
    (fun i => if (i =? 1)%nat then [answered (c_json good)] else []).

End MoreSamples.

(* ================================================================== *)
(** ** JSON text *)
(* ================================================================== *)

Module Json.

Definition backslash : string := String "092"%char EmptyString.

(** A hexadecimal digit, in lower case. *)
Definition hexDigit (n : nat) : ascii :=
  if (n <? 10)%nat then ascii_of_nat (48 + n) else ascii_of_nat (87 + n).

(** How [JSON.stringify] writes one character of a string: the quote
    and the backslash take a backslash, the control characters their
    short or [\u00xx] form, every other character itself. *)
Definition escapeChar (c : ascii) : string :=
  let n := nat_of_ascii c in
  if (n =? 34)%nat then backslash ++ dq
  else if (n =? 92)%nat then backslash ++ backslash
  else if (n =? 8)%nat then backslash ++ "b"
  else if (n =? 9)%nat then backslash ++ "t"
  else if (n =? 10)%nat then backslash ++ "n"
  else if (n =? 12)%nat then backslash ++ "f"
  else if (n =? 13)%nat then backslash ++ "r"
  else if (n <? 32)%nat then
    backslash ++ "u00"
    ++ String (hexDigit (n / 16)) (String (hexDigit (n mod 16)) EmptyString)
  else String c EmptyString.

Fixpoint escape (s : string) : string :=
  match s with
  | EmptyString => EmptyString
  | String c s' => escapeChar c ++ escape s'
  end.

Definition quote (s : string) : string := dq ++ escape s ++ dq.

Fixpoint join (parts : list string) : string :=
  match parts with
  | [] => EmptyString
  | [x] => x
  | x :: rest => x ++ "," ++ join rest
  end.

Definition showZ (n : Z) : string :=
  DecimalString.NilEmpty.string_of_int (Z.to_int n).

(** [JSON.stringify(j)] *)
Fixpoint stringify (j : json) : string :=
  match j with
  | JNull => "null"
  | JBool true => "true"
  | JBool false => "false"
  | JNum n => showZ n
  | JStr s => quote s
  | JArr items => "[" ++ join (map stringify items) ++ "]"
  | JObj fields =>
      "{" ++ join (map (fun kv => quote (fst kv) ++ ":" ++ stringify (snd kv))
                       fields)
      ++ "}"
  end.

End Json.

(* ================================================================== *)
(** ** Sending a query *)
(* ================================================================== *)

Module Submission.

(** Modelled from the spec: the code that sends a query (the plugin's
    datasource and the host's request layer) is not among the sources.
    The query endpoint "accepts a POST carrying one or more named
    queries (each an opaque script string)"; the macro test reads the
    script back from [queries[0].expr] of the parsed post data, so the
    request is a POST whose post data is the JSON text of a payload
    that holds the script there. *)
Definition submitted (u : string) (payload : json) : Macro.Request :=
  Macro.mkRequest u "POST" (Some (Json.stringify payload)) (Some payload).

(** The payload carries [script] as its first query. *)
Definition carries (payload : json) (script : string) : Prop :=
  Macro.exprOf payload = Val (JStr script).

End Submission.

(* ================================================================== *)
(** ** The health check of a datasource *)
(* ================================================================== *)

Module HealthCheck.

(** Modelled from the spec: the health check is performed by the
    plugin's backend, which is not among the sources. The health
    endpoint "returns {status, message}" and is "consumed to confirm
    connectivity configuration succeeded or to surface a
    connection-refused style message when it deliberately failed". *)
Inductive Dial : Type :=
| Connected     (* the backend answered *)
| Refused.      (* nothing listens at the backend URL *)

(** The report for the outcome of dialling the backend; [detail] is
    the text that goes with it (what succeeded, or what was dialled). *)
Definition healthReport (d : Dial) (detail : string) : json :=
  match d with
  | Connected =>
      JObj [("status", JStr "ok"); ("message", JStr detail)]
  | Refused =>
      JObj [("status", JStr "error");
            ("message", JStr (detail ++ ": connect: connection refused"))]
  end.

(** The message of a report, which the alert of the settings page
    shows after a save ("the error is detected and shown in the UI"). *)
Definition messageOf (report : json) : option string :=
  match prop report "message" with
  | Val (JStr m) => Some m
  | _ => None
  end.

End HealthCheck.

(* ================================================================== *)
(** ** The two awaits of the scenario handler *)
(* ================================================================== *)

Module Phases.

Import Capture.

(** The scenario handler awaits [response.json()] once in each of its
    two [if]s, and acts on its variables when the await settles. One
    such settlement: of the first [if] (query filter) or of the second
    (health filter), for a given response. *)
Inductive Settled : Type :=
| QuerySettled (r : Response)
| HealthSettled (r : Response).

Definition settle (e : Settled) (s : State) : State :=
  match e with
  | QuerySettled r => onQuery isQuery r s
  | HealthSettled r => onHealth r s
  end.

(** The settlements of a run, in the order in which they happen; those
    of different responses may interleave. *)
Definition settleAll (es : list Settled) (s : State) : State :=
  fold_left (fun acc e => settle e acc) es s.

Definition querySettlements (es : list Settled) : list Response :=
  flat_map (fun e => match e with
                     | QuerySettled r => [r]
                     | HealthSettled _ => []
                     end) es.

Definition healthSettlements (es : list Settled) : list Response :=
  flat_map (fun e => match e with
                     | HealthSettled r => [r]
                     | QuerySettled _ => []
                     end) es.

End Phases.

(* ================================================================== *)
(** ** Sample runs of the negative path and of the query-editor test *)
(* ================================================================== *)

Module LaterSamples.

Import Capture Samples.



(** The same run against a backend that answers: the report has the
    success shape and the alert shows its message. *)
Definition connectedRun : Run.Env :=
  Run.mkEnv "10.4.1" (fun _ => true) (fun _ _ => true)
    (fun _ _ => HealthCheck.messageOf
                  (HealthCheck.healthReport HealthCheck.Connected
                     "Datasource is working"))
    (fun _ _ => Script.editorScript)
    (fun _ => everythingThere)
    (fun i => if (i =? 7)%nat
              then [healthExchange
                      (HealthCheck.healthReport HealthCheck.Connected
                         "Datasource is working")]
              else []).

(** The calm run in which the only response that arrives (while the
    page loads, statement 1) has no [results.A]. *)
Definition onlyWithoutA : Run.Env :=
  Run.withArrivals calm
    (fun i => if (i =? 1)%nat
              then [mkResponse queryUrl "POST" 500 (Some (c_json noResultA))]
              else []).


(** A script that defines the macro on one line and calls it, the
    payload of its query, and the JSON text of that payload. *)
Definition oneLineMacro : string :=
  "<% 2 + %> 'addmacro' STORE" ++ nl ++ "10 32 $addmacro".

Definition oneLinePayload : json :=
  JObj [("queries",
         JArr [JObj [("refId", JStr "A"); ("expr", JStr oneLineMacro)]]);
        ("from", JStr "now-6h")].

Definition oneLinePostData : string :=
  "{" ++ dq ++ "queries" ++ dq ++ ":[{"
  ++ dq ++ "refId" ++ dq ++ ":" ++ dq ++ "A" ++ dq ++ ","
  ++ dq ++ "expr" ++ dq ++ ":" ++ dq
  ++ "<% 2 + %> 'addmacro' STORE\n10 32 $addmacro"
  ++ dq ++ "}]," ++ dq ++ "from" ++ dq ++ ":" ++ dq ++ "now-6h" ++ dq ++ "}".

End LaterSamples.

(* ================================================================== *)
(** * Properties *)
(* ================================================================== *)

Import Capture Samples.

(* ------------------------------------------------------------------ *)
(** ** Substring search is what it says *)

Lemma startsWith_spec (t s : string) :
  startsWith s t = true <-> exists b, s = t ++ b.
Proof.
  revert s. induction t as [|c t IH]; intros s; simpl.
  - split; [intros _; now exists s | reflexivity].
  - destruct s as [|d s].
    + split; [discriminate | intros [b Hb]; discriminate].
    + destruct (Ascii.eqb c d) eqn:E.
      * apply Ascii.eqb_eq in E. subst d. rewrite IH.
        split; intros [b Hb]; exists b; [now rewrite Hb | now inversion Hb].
      * apply Ascii.eqb_neq in E.
        split; [discriminate | intros [b Hb]; inversion Hb; congruence].
Qed.

Lemma includes_spec (s t : string) :
  includes s t = true <-> exists a b, s = a ++ t ++ b.
Proof.
  induction s as [|d s IH]; simpl.
  - destruct (startsWith EmptyString t) eqn:E.
    + apply startsWith_spec in E. destruct E as [b Hb].
      split; [intros _; now exists EmptyString, b | reflexivity].
    + split; [discriminate|].
      intros [a [b H]]. destruct a; simpl in H.
      * assert (startsWith EmptyString t = true) by (apply startsWith_spec; now exists b).
        congruence.
      * discriminate.
  - destruct (startsWith (String d s) t) eqn:E.
    + apply startsWith_spec in E. destruct E as [b Hb].
      split; [intros _; now exists EmptyString, b | reflexivity].
    + rewrite IH. split.
      * intros [a [b H]]. exists (String d a), b. simpl. now rewrite H.
      * intros [a [b H]]. destruct a as [|e a]; simpl in H.
        -- assert (startsWith (String d s) t = true)
             by (apply startsWith_spec; now exists b).
           congruence.
        -- inversion H. now exists a, b.
Qed.

(* ------------------------------------------------------------------ *)
(** ** The capture buffer *)

Section CaptureFacts.

Variable matches : Response -> bool.

Lemma onQuery_responses (r : Response) (s : State) :
  responses (onQuery matches r s) = (responses s ++ capturedOf matches r)%list.
Proof.
  unfold onQuery, capturedOf.
  destruct (matches r); [destruct (body r)|]; simpl;
    now rewrite ?app_nil_r.
Qed.

Lemma onHealth_responses (r : Response) (s : State) :
  responses (onHealth r s) = responses s.
Proof.
  unfold onHealth. destruct (isHealth r); [destruct (body r)|]; reflexivity.
Qed.

Lemma onQuery_parse_failure (r : Response) (s : State) :
  matches r = true -> body r = None ->
  onQuery matches r s
  = mkState (responses s) (healthResponse s)
            (logs s ++ [LParseFailed (url r)]).
Proof.
  intros Hm Hb. unfold onQuery. now rewrite Hm, Hb.
Qed.

(** A handler that adds to the buffer what [capturedOf] says, delivered
    a list of responses, adds their contributions in order. *)
Lemma deliver_responses (h : Response -> State -> State) :
  (forall r s, responses (h r s) = (responses s ++ capturedOf matches r)%list) ->
  forall events s,
    responses (deliver h events s)
    = (responses s ++ flat_map (capturedOf matches) events)%list.
Proof.
  intros Hh events. unfold deliver.
  induction events as [|r events IH]; intros s; simpl.
  - now rewrite app_nil_r.
  - rewrite IH, Hh, <- app_assoc. reflexivity.
Qed.

Lemma capturedOf_length (events : list Response) :
  List.length (flat_map (capturedOf matches) events)
  = List.length
      (filter (fun r => matches r && match body r with
                                      | Some _ => true
                                      | None => false
                                      end) events).
Proof.
  induction events as [|r events IH]; simpl; [reflexivity|].
  rewrite length_app, IH. unfold capturedOf.
  destruct (matches r); [destruct (body r)|]; reflexivity.
Qed.

End CaptureFacts.

Lemma scenarioHandler_responses (r : Response) (s : State) :
  responses (scenarioHandler r s)
  = (responses s ++ capturedOf isQuery r)%list.
Proof.
  unfold scenarioHandler. now rewrite onHealth_responses, onQuery_responses.
Qed.


Lemma isWarp10Query_isQuery (r : Response) :
  isWarp10Query r = true -> isQuery r = true.
Proof.
  unfold isWarp10Query, isQuery. intros H.
  apply andb_true_iff in H. tauto.
Qed.

(** Sanity checks of the filters on the sample exchanges. *)
Example garbled_matches :
  isQuery garbled = true /\ isWarp10Query garbled = true
  /\ isHealth garbled = false.
Proof. vm_compute. repeat split. Qed.

Example unrelated_matches_nothing :
  isQuery unrelated = false /\ isWarp10Query unrelated = false
  /\ isHealth unrelated = false.
Proof. vm_compute. repeat split. Qed.

(** C2, as stated, fails: a POST to the query endpoint whose body is
    not JSON matches the filter of every handler, and after the handler
    has run on it the buffer is still empty: the exchange is dropped,
    and the only trace is the log line naming its URL. *)
Lemma parse_failure_is_dropped :
  isQuery garbled = true /\ isWarp10Query garbled = true
  /\ body garbled = None
  /\ drain (scenarioHandler garbled init) = []
  /\ drain (editorHandler garbled init) = []
  /\ drain (queryEditorHandler garbled init) = []
  /\ logs (scenarioHandler garbled init) = [LParseFailed (url garbled)].
Proof. vm_compute. repeat split. Qed.

(** C2, amended: for every response that matches the query filter and
    whose body cannot be parsed as JSON, every handler leaves the
    capture buffer as it was; the handler writes the log line "Failed to
    parse JSON for" with the response's URL and nothing else is kept of
    the exchange. *)
Theorem parse_failure_leaves_buffer (r : Response) (s : State) :
  isQuery r = true -> body r = None ->
  drain (scenarioHandler r s) = drain s
  /\ drain (editorHandler r s) = drain s
  /\ drain (queryEditorHandler r s) = drain s
  /\ In (LParseFailed (url r)) (logs (scenarioHandler r s))
  /\ editorHandler r s
     = mkState (responses s) (healthResponse s)
               (logs s ++ [LParseFailed (url r)])
  /\ logs (queryEditorHandler r s)
     = (logs s ++ if isWarp10Query r then [LParseFailed (url r)] else [])%list.
Proof.
  intros Hq Hb. unfold drain.
  assert (Hc : forall m, capturedOf m r = []).
  { intros m. unfold capturedOf. rewrite Hb. now destruct (m r). }
  repeat split.
  - now rewrite scenarioHandler_responses, Hc, app_nil_r.
  - unfold editorHandler. now rewrite onQuery_responses, Hc, app_nil_r.
  - unfold queryEditorHandler. now rewrite onQuery_responses, Hc, app_nil_r.
  - unfold scenarioHandler. rewrite (onQuery_parse_failure isQuery r s Hq Hb).
    unfold onHealth. rewrite Hb.
    destruct (isHealth r); simpl; rewrite ?in_app_iff; simpl; tauto.
  - unfold editorHandler. now apply onQuery_parse_failure.
  - unfold queryEditorHandler, onQuery. rewrite Hb.
    destruct (isWarp10Query r); simpl; now rewrite ?app_nil_r.
Qed.

Lemma parse_failure_leaves_buffer_witness :
  drain (scenarioHandler garbled init) = drain init
  /\ drain (editorHandler garbled init) = drain init
  /\ drain (queryEditorHandler garbled init) = drain init
  /\ In (LParseFailed (url garbled)) (logs (scenarioHandler garbled init))
  /\ editorHandler garbled init
     = mkState (responses init) (healthResponse init)
               (logs init ++ [LParseFailed (url garbled)])
  /\ logs (queryEditorHandler garbled init)
     = (logs init ++ if isWarp10Query garbled
                     then [LParseFailed (url garbled)] else [])%list.
Proof.
  apply (parse_failure_leaves_buffer garbled init); reflexivity.
Defined.

(** C6, as stated, fails: of two completed exchanges that match the
    armed filter, the one whose body is not JSON never reaches the
    buffer, so the buffer holds one entry and not two. *)
Lemma drain_misses_unparsed :
  List.length (filter isQuery [answered (JObj []); garbled]) = 2%nat
  /\ List.length
       (drain (deliver scenarioHandler [answered (JObj []); garbled] init))
     = 1%nat.
Proof. vm_compute. split; reflexivity. Qed.

(** C6, amended: after any sequence of completed exchanges the buffer
    of a handler holds, after what it held before, exactly the
    exchanges that match the handler's filter and whose body parsed as
    JSON, in the order in which they completed; exchanges that do not
    match contribute nothing and do not disturb that order; read from
    an empty buffer, the number of entries is the number of matching
    exchanges that parsed. *)
Theorem drain_in_completion_order (events : list Response) (s : State) :
  drain (deliver scenarioHandler events s)
  = (drain s ++ flat_map (capturedOf isQuery) events)%list
  /\ drain (deliver editorHandler events s)
     = (drain s ++ flat_map (capturedOf isQuery) events)%list
  /\ drain (deliver queryEditorHandler events s)
     = (drain s ++ flat_map (capturedOf isWarp10Query) events)%list
  /\ List.length (drain (deliver scenarioHandler events init))
     = List.length
         (filter (fun r => isQuery r && match body r with
                                         | Some _ => true
                                         | None => false
                                         end) events).
Proof.
  unfold drain. repeat split.
  - apply deliver_responses. exact scenarioHandler_responses.
  - apply deliver_responses. intros r s'. apply onQuery_responses.
  - apply deliver_responses. intros r s'. apply onQuery_responses.
  - rewrite (deliver_responses isQuery scenarioHandler
               scenarioHandler_responses).
    simpl. apply capturedOf_length.
Qed.

(** Leaving out an exchange that does not match changes nothing. *)
Lemma deliver_ignores_unmatched (before after : list Response)
  (x : Response) (s : State) :
  isQuery x = false ->
  drain (deliver scenarioHandler (before ++ x :: after) s)
  = drain (deliver scenarioHandler (before ++ after) s).
Proof.
  intros Hx. unfold drain.
  rewrite !(deliver_responses isQuery scenarioHandler
              scenarioHandler_responses).
  rewrite !flat_map_app. simpl.
  unfold capturedOf at 2. now rewrite Hx.
Qed.

Example drain_sample :
  drain (deliver scenarioHandler
           [answered (JNum 1); unrelated; garbled; answered (JNum 2)] init)
  = [ mkCaptured (url (answered (JNum 1))) (JNum 1) 200;
      mkCaptured (url (answered (JNum 2))) (JNum 2) 200 ].
Proof. vm_compute. reflexivity. Qed.

(* ------------------------------------------------------------------ *)
(** ** The inspection loop *)

Import Validate.

Lemma catch_log_returns (m : Try unit) (i : nat) :
  snd (catch m (fun e => log (LError i e))) = inr tt.
Proof. destruct m as [l [e|[]]]; reflexivity. Qed.

(** An iteration never throws: the [try] catches every failed
    assertion. *)
Lemma checkResponse_returns (i total : nat) (r : Captured) :
  snd (checkResponse i total r) = inr tt.
Proof.
  unfold checkResponse.
  destruct (resultAOf r) as [|a]; [reflexivity|].
  destruct (truthy (Val a)); [|reflexivity].
  pose proof (catch_log_returns (tryBody i r a) (i + 1)) as H.
  unfold bind. unfold log in *.
  destruct (catch (tryBody i r a) (fun e => ([LError (i + 1) e], inr tt)))
    as [l res].
  exact H.
Qed.

Lemma loopFrom_returns (rs : list Captured) (i total : nat) :
  snd (loopFrom i total rs) = inr tt.
Proof.
  revert i. induction rs as [|r rs IH]; intros i; simpl; [reflexivity|].
  pose proof (checkResponse_returns i total r) as Hc.
  destruct (checkResponse i total r) as [l [e|[]]]; simpl in *;
    [discriminate|].
  specialize (IH (S i)). destruct (loopFrom (S i) total rs) as [l' res].
  simpl in *. exact IH.
Qed.

Lemma loopFrom_cons (i total : nat) (r : Captured) (rs : list Captured) :
  fst (loopFrom i total (r :: rs))
  = (fst (checkResponse i total r) ++ fst (loopFrom (S i) total rs))%list.
Proof.
  simpl. pose proof (checkResponse_returns i total r) as Hc.
  destruct (checkResponse i total r) as [l [e|[]]]; simpl in *;
    [discriminate|].
  now destruct (loopFrom (S i) total rs).
Qed.

Lemma loopFrom_app (pre post : list Captured) (i total : nat) :
  fst (loopFrom i total (pre ++ post))
  = (fst (loopFrom i total pre)
     ++ fst (loopFrom (i + List.length pre) total post))%list.
Proof.
  revert i. induction pre as [|r pre IH]; intros i.
  - simpl. now rewrite Nat.add_0_r.
  - rewrite <- app_comm_cons, !loopFrom_cons, IH, <- app_assoc.
    simpl List.length. now rewrite Nat.add_succ_r.
Qed.

Lemma verifyResponses_returns (rs : list Captured) :
  rs <> [] -> Run.returns (verifyResponses rs) = true.
Proof.
  intros Hne. destruct rs as [|r rs]; [congruence|].
  unfold Run.returns, verifyResponses, inspectLoop.
  pose proof (loopFrom_returns (r :: rs) 0 (List.length (r :: rs))) as H.
  simpl in *.
  destruct (checkResponse 0 (S (List.length rs)) r) as [l [e|[]]];
    simpl in *; [discriminate|].
  destruct (loopFrom 1 (S (List.length rs)) rs) as [l' res].
  simpl in *. now rewrite H.
Qed.

(** C3, as stated, fails: on an answer that breaks every assertion of
    the [try] block, the first failed assertion throws into the
    [catch]; the log holds the "Checking" line and one error line for
    the HTTP status, and nothing at all about the embedded status, the
    schema name or the data column, which fail as well. *)
Lemma first_failure_hides_the_rest :
  resultAOf allWrong = Val (JObj [("status", JNum 500)])
  /\ forallb (fun rule => negb (holds rule allWrong
                                  (JObj [("status", JNum 500)]))) rules
     = true
  /\ fst (checkResponse 0 1 allWrong) = [LChecking 1 1; LError 1 RStatus]
  /\ reported (fst (checkResponse 0 1 allWrong)) = [RStatus].
Proof. vm_compute. repeat split. Qed.

(** C3, amended: for every captured response that has a [results.A],
    the assertions are evaluated in source order (HTTP status, embedded
    status, schema name, data column) and evaluation stops at the first
    that fails: the log holds the lines of the assertions before it and
    one error line naming it, and nothing about the assertions after
    it; when none fails, every success line and the full JSON are
    logged. The iteration itself never throws. *)
Theorem inspection_stops_at_first_failure
  (index total : nat) (r : Captured) (resultA : json) :
  resultAOf r = Val resultA -> truthy (Val resultA) = true ->
  checkResponse index total r
  = (LChecking (index + 1) total :: linesFor index r resultA, inr tt).
Proof.
  intros HA Ht. unfold checkResponse. rewrite HA, Ht.
  unfold linesFor, firstFailure, tryBody, rules. simpl find.
  unfold holds.
  destruct (c_status r =? 200)%Z; simpl; [|reflexivity].
  destruct (is200 (prop resultA "status")); simpl; [|reflexivity].
  destruct (isString (schemaNameOf resultA)); simpl; [|reflexivity].
  destruct (isArray (firstColumnOf resultA)); simpl; reflexivity.
Qed.

Lemma inspection_stops_at_first_failure_witness :
  resultAOf innerError
  = Val (JObj [("status", JNum 400); ("error", JStr "Unknown function");
               ("frames", JArr [frame])])
  /\ checkResponse 2 5 innerError
     = ([LChecking 3 5; LStatusOk; LError 3 RResultStatus], inr tt).
Proof.
  split; [reflexivity|].
  apply (inspection_stops_at_first_failure 2 5 innerError
           (JObj [("status", JNum 400); ("error", JStr "Unknown function");
                  ("frames", JArr [frame])])); reflexivity.
Defined.

Example good_is_fully_logged :
  fst (checkResponse 0 1 good)
  = [LChecking 1 1; LStatusOk; LResultStatusOk; LSchemaName (Val (JStr "sinus"));
     LDataArrayOk; LFullJson 1 (c_json good)].
Proof. vm_compute. reflexivity. Qed.

(** C10, as stated, fails in its last clause: the response without
    [results.A] is in the buffer, so it counts for
    [expect(responses.length).toBeGreaterThan(0)], which comes before
    the loop. The run of the query-editor test in which nothing is
    captured fails at the verification step (statement 5); the same run
    in which the only response captured is one without [results.A]
    completes. *)
Lemma skipped_response_decides_outcome :
  resultAOf noResultA = Undefined
  /\ Run.returns (verifyResponses []) = false
  /\ Run.returns (verifyResponses [noResultA]) = true
  /\ fst (Run.runTest calm Script.queryEditorTest []) = Run.Failed 5
  /\ drain (Run.cap (snd (Run.runTest LaterSamples.onlyWithoutA
                            Script.queryEditorTest [])))
     = [noResultA]
  /\ fst (Run.runTest LaterSamples.onlyWithoutA Script.queryEditorTest [])
     = Run.Completed.
Proof. vm_compute. repeat split. Qed.

(** C10, amended: a captured response whose parsed body has no
    [results.A] is skipped by the inspection loop: its iteration writes
    the "Checking" line and the "Skipping" line and nothing else, so no
    assertion of the [try] block is evaluated against it and no error
    line is written for it, and the lines of the responses before and
    after it are those of the loop over them. It is not without effect
    on the outcome, though: it counts for the length check before the
    loop, so with it the verification step returns, and without it the
    step returns exactly when some other response was captured. *)
Theorem response_without_resultA_is_skipped
  (before after : list Captured) (r : Captured) (index total : nat) :
  resultAOf r = Undefined ->
  checkResponse index total r
  = ([LChecking (index + 1) total; LSkipping (index + 1)], inr tt)
  /\ reported (fst (checkResponse index total r)) = []
  /\ fst (loopFrom index total (before ++ r :: after))
     = (fst (loopFrom index total before)
        ++ [LChecking (index + List.length before + 1) total;
            LSkipping (index + List.length before + 1)]
        ++ fst (loopFrom (index + List.length before + 1) total after))%list
  /\ Run.returns (verifyResponses (before ++ r :: after)) = true
  /\ (Run.returns (verifyResponses (before ++ after)) = true
      <-> (before ++ after)%list <> []).
Proof.
  intros HA.
  assert (Hc : forall i, checkResponse i total r
                         = ([LChecking (i + 1) total; LSkipping (i + 1)],
                            inr tt)).
  { intros i. unfold checkResponse. now rewrite HA. }
  split; [apply Hc|]. split; [now rewrite Hc|]. split; [|split].
  - rewrite loopFrom_app, loopFrom_cons, Hc. simpl.
    now rewrite Nat.add_1_r.
  - apply verifyResponses_returns. now destruct before.
  - split.
    + intros H E. rewrite E in H. discriminate.
    + apply verifyResponses_returns.
Qed.

Lemma response_without_resultA_is_skipped_witness :
  resultAOf noResultA = Undefined
  /\ checkResponse 1 3 noResultA = ([LChecking 2 3; LSkipping 2], inr tt)
  /\ reported (fst (checkResponse 1 3 noResultA)) = []
  /\ fst (loopFrom 1 3 ([good] ++ noResultA :: [innerError]))
     = (fst (loopFrom 1 3 [good])
        ++ [LChecking (1 + List.length [good] + 1) 3;
            LSkipping (1 + List.length [good] + 1)]
        ++ fst (loopFrom (1 + List.length [good] + 1) 3 [innerError]))%list
  /\ Run.returns (verifyResponses ([good] ++ noResultA :: [innerError])) = true
  /\ (Run.returns (verifyResponses ([good] ++ [innerError])) = true
      <-> ([good] ++ [innerError])%list <> []).
Proof.
  split; [reflexivity|].
  apply (response_without_resultA_is_skipped [good] [innerError] noResultA 1 3).
  reflexivity.
Defined.

(* ------------------------------------------------------------------ *)
(** ** Running the scenario: cleanup *)

Import Dom Script Run.

Lemma hasName_In (n : string) (ds : list string) :
  hasName n ds = true <-> In n ds.
Proof.
  unfold hasName. rewrite existsb_exists. split.
  - intros [x [Hin He]]. apply String.eqb_eq in He. now subst.
  - intros Hin. exists n. split; [assumption | apply String.eqb_refl].
Qed.

Lemma In_addName (n : string) (ds : list string) : In n (addName n ds).
Proof.
  unfold addName. destruct (hasName n ds) eqn:E.
  - now apply hasName_In.
  - apply in_or_app. right. now left.
Qed.

Lemma hasName_addName (n : string) (ds : list string) :
  hasName n (addName n ds) = true.
Proof. apply hasName_In, In_addName. Qed.

Lemma addName_idem (n : string) (ds : list string) :
  addName n (addName n ds) = addName n ds.
Proof. unfold addName at 1. now rewrite hasName_addName. Qed.

Lemma not_In_removeName (n : string) (ds : list string) :
  ~ In n (removeName n ds).
Proof.
  unfold removeName. rewrite filter_In. intros [_ H].
  now rewrite String.eqb_refl in H.
Qed.

Lemma runAll_ui (env : Env) (ops : list Op) (i : nat) (w : World) :
  ui (runAll env i ops w) = fold_left (fun u op => uiEffect op u) ops (ui w).
Proof.
  revert i w. induction ops as [|op ops IH]; intros i w; simpl;
    [reflexivity|].
  now rewrite IH.
Qed.

Lemma runFrom_step (env : Env) (i : nat) (op : Op) (rest : list Op)
  (w : World) :
  fst (runFrom env i (op :: rest) w) = Completed ->
  passes env i op w = true
  /\ fst (runFrom env (S i) rest (receive (arrivals env i) (effect op w)))
     = Completed.
Proof.
  simpl. destruct (passes env i op w); [now split | discriminate].
Qed.

Lemma runFrom_completed (env : Env) (ops : list Op) (i : nat) (w : World) :
  fst (runFrom env i ops w) = Completed ->
  snd (runFrom env i ops w) = runAll env i ops w.
Proof.
  revert i w. induction ops as [|op ops IH]; intros i w H;
    [reflexivity|].
  destruct (runFrom_step _ _ _ _ _ H) as [Hp Hr].
  simpl. rewrite Hp. now apply IH.
Qed.

(** A run that fails at position [k] has run the statements before it
    and none after. *)
Lemma runFrom_failed (env : Env) (ops : list Op) (i k : nat) (w : World) :
  fst (runFrom env i ops w) = Failed k ->
  exists n, k = (i + n)%nat /\ (n < List.length ops)%nat
            /\ snd (runFrom env i ops w) = runAll env i (firstn n ops) w.
Proof.
  revert i w. induction ops as [|op ops IH]; intros i w H; simpl in H;
    [discriminate|].
  simpl runFrom. destruct (passes env i op w).
  - destruct (IH _ _ H) as [n [Hk [Hn Hs]]].
    exists (S n). simpl. repeat split; [lia | lia | exact Hs].
  - simpl in H. injection H as <-. exists 0%nat. simpl.
    repeat split; lia.
Qed.



Lemma targetsFor_cases (version : string) :
  targetsFor version
  = if Version.lt10 (Version.major version)
    then legacyTargets else modernTargets.
Proof.
  unfold targetsFor. now destruct (Version.lt10 (Version.major version)).
Qed.

Ltac run_ui :=
  lazy -[addName removeName hasName In];
  rewrite ?addName_idem, ?hasName_addName;
  lazy -[addName removeName hasName In].

(** Where a run of either scenario script ends up on the host when no
    statement throws. *)
Lemma scenario_ui_after_all (script : Script) (version : string)
  (ds : list string) :
  script = scenarioV1 \/ script = scenarioV2 ->
  datasources
    (fold_left (fun u op => uiEffect op u) (script version)
               (mkUi ds EmptyString false None false))
  = removeName "test_warp10" (addName "test_warp10" ds).
Proof.
  intros [-> | ->].
  - unfold scenarioV1. rewrite targetsFor_cases.
    destruct (Version.lt10 (Version.major version)); run_ui; reflexivity.
  - unfold scenarioV2. run_ui. reflexivity.
Qed.

(** C1, as stated, fails: in a run of the second scenario in which the
    alert of the health validation shows another text, the assertion at
    statement 9 throws and the test ends there; in a run in which the
    click on the run button throws, the test ends at statement 23.
    Either way the deletion statements (26 to 30) are never reached and
    the host keeps the datasource [test_warp10], so the next run starts
    with that name taken. *)
Lemma failed_run_leaves_datasource :
  fst (runTest otherAlert scenarioV2 []) = Failed 9
  /\ datasources (ui (snd (runTest otherAlert scenarioV2 [])))
     = ["test_warp10"]
  /\ fst (runTest runButtonStuck scenarioV2 []) = Failed 23
  /\ datasources (ui (snd (runTest runButtonStuck scenarioV2 [])))
     = ["test_warp10"].
Proof. vm_compute. repeat split. Qed.

(** Any failure of the second scenario after the first save and up to
    the confirmation of the delete leaves the datasource on the host. *)
Lemma failure_after_save_leaves_datasource (env : Env) (ds : list string)
  (k : nat) :
  fst (runTest env scenarioV2 ds) = Failed k -> (8 <= k)%nat ->
  In "test_warp10" (datasources (ui (snd (runTest env scenarioV2 ds)))).
Proof.
  unfold runTest. intros H Hk.
  destruct (runFrom_failed _ _ _ _ _ H) as [n [Hn [Hlen ->]]].
  rewrite runAll_ui. simpl in Hn. subst n.
  unfold scenarioV2 in *. simpl List.length in Hlen.
  do 8 (destruct k as [|k]; [lia|]).
  do 23 (destruct k as [|k]; [run_ui; apply In_addName|]).
  lia.
Qed.

(** C1, amended: when no statement of a run of the scenario throws, the
    datasource [test_warp10] created by the save is deleted by the last
    statements of the script, so it is absent from the host when the
    test completes; a second run that follows therefore starts without
    that name on the host and, when it completes as well, leaves none
    either. (When a statement throws before the deletion statements,
    these are not executed.) *)
Theorem cleanup_when_nothing_throws (script : Script) (env1 env2 : Env)
  (ds : list string) :
  script = scenarioV1 \/ script = scenarioV2 ->
  fst (runTest env1 script ds) = Completed ->
  fst (runTest env2 script
         (datasources (ui (snd (runTest env1 script ds))))) = Completed ->
  ~ In "test_warp10" (datasources (ui (snd (runTest env1 script ds))))
  /\ ~ In "test_warp10"
       (datasources
          (ui (snd (runTest env2 script
                      (datasources (ui (snd (runTest env1 script ds)))))))).
Proof.
  intros Hs H1 H2.
  assert (Hend : forall env ds',
             fst (runTest env script ds') = Completed ->
             ~ In "test_warp10"
                 (datasources (ui (snd (runTest env script ds'))))).
  { intros env ds' H. unfold runTest in *.
    rewrite (runFrom_completed _ _ _ _ H), runAll_ui.
    unfold fresh. simpl ui.
    rewrite (scenario_ui_after_all script (version env) ds' Hs).
    apply not_In_removeName. }
  split; now apply Hend.
Qed.

Lemma cleanup_when_nothing_throws_witness :
  fst (runTest calm scenarioV2 ["Warp10-Clever-Cloud"]) = Completed
  /\ ~ In "test_warp10"
       (datasources (ui (snd (runTest calm scenarioV2
                                ["Warp10-Clever-Cloud"]))))
  /\ ~ In "test_warp10"
       (datasources
          (ui (snd (runTest calm scenarioV2
                      (datasources
                         (ui (snd (runTest calm scenarioV2
                                     ["Warp10-Clever-Cloud"])))))))).
Proof.
  split; [vm_compute; reflexivity|].
  apply (cleanup_when_nothing_throws scenarioV2 calm calm
           ["Warp10-Clever-Cloud"]).
  - right; reflexivity.
  - vm_compute; reflexivity.
  - vm_compute; reflexivity.
Defined.

Example calm_run_ends_clean :
  fst (runTest calm scenarioV1 ["Warp10-Clever-Cloud"]) = Completed
  /\ datasources (ui (snd (runTest calm scenarioV1 ["Warp10-Clever-Cloud"])))
     = ["Warp10-Clever-Cloud"].
Proof. vm_compute. split; reflexivity. Qed.

(** The validation step of the scenario only writes lines, whatever the
    last response was. *)
Example final_validation_only_logs :
  FinalTestValidation [] = [LNoResponse]
  /\ FinalTestValidation [good; allWrong]
     = [LLast (c_json allWrong); LFailedStatus 500]
  /\ FinalTestValidation [allWrong; good] = [LLast (c_json good); LCompleted].
Proof. vm_compute. repeat split. Qed.

(* ------------------------------------------------------------------ *)
(** ** Running the scenario: the negative path *)



(* ------------------------------------------------------------------ *)
(** ** Versions and selectors *)

Example major_samples :
  Version.major "9.5.2" = Some 9%Z
  /\ Version.major "10.4.1" = Some 10%Z
  /\ Version.major "11.0.0-pre" = Some 11%Z
  /\ Version.major " 12.1" = Some 12%Z
  /\ Version.major "v10.2.0" = None
  /\ Version.major EmptyString = None
  /\ Version.major ".5" = None
  /\ Version.major "-3.1" = Some (-3)%Z.
Proof. vm_compute. repeat split. Qed.

Example targets_samples :
  targetsFor "9.5.2" = legacyTargets
  /\ targetsFor "10.4.1" = modernTargets
  /\ targetsFor "unknown" = modernTargets.
Proof. vm_compute. repeat split. Qed.

(** The loop over the selectors stops at the first that finds an
    element, and fails only when none does. *)
Lemma tryEach_first (p : PageView) (sels : list string) :
  (exists sel, In sel sels /\ present p sel = true) ->
  exists before sel after,
    sels = (before ++ sel :: after)%list
    /\ present p sel = true
    /\ (forall x, In x before -> present p x = false)
    /\ tryEach p sels = (if clickOk p sel then Clicked sel else ClickThrew sel).
Proof.
  induction sels as [|s0 sels IH]; intros [sel [Hin Hp]].
  - destruct Hin.
  - simpl. destruct (present p s0) eqn:E0.
    + exists [], s0, sels. repeat split; [assumption | intros x []].
    + destruct Hin as [-> | Hin]; [congruence|].
      destruct IH as [before [sel' [after [Hs [Hp' [Hb Ht]]]]]];
        [now exists sel|].
      exists (s0 :: before), sel', after. rewrite Hs. repeat split.
      * assumption.
      * intros x [<- | Hx]; [assumption | now apply Hb].
      * rewrite <- Hs. exact Ht.
Qed.

Lemma tryEach_none (p : PageView) (sels : list string) :
  tryEach p sels = NotFound <-> forall sel, In sel sels -> present p sel = false.
Proof.
  induction sels as [|s0 sels IH]; simpl.
  - split; [intros _ sel [] | reflexivity].
  - destruct (present p s0) eqn:E0.
    + split.
      * destruct (clickOk p s0); discriminate.
      * intros H. specialize (H s0 (or_introl eq_refl)). congruence.
    + rewrite IH. split.
      * intros H sel [<- | Hin]; [assumption | now apply H].
      * intros H sel Hin. apply H. now right.
Qed.

(** C7: an action whose candidates carry no version predicate is
    resolved whatever the probed version string is: when at least one
    of the selectors of [clickAddPanelButton] finds an element, the
    first such selector in declared order is the one that is tried
    (clicked), and the "could not find" error is not raised; and the
    constants that do depend on the version are defined for every
    version string, one whose major component does not parse included:
    the comparison [major < 10] is then false and the constants of the
    recent hosts are used. *)
Theorem resolution_survives_any_version (version : string) (p : PageView) :
  (exists sel, In sel addPanelSelectors /\ present p sel = true) ->
  (exists before sel after,
      addPanelSelectors = (before ++ sel :: after)%list
      /\ present p sel = true
      /\ (forall x, In x before -> present p x = false)
      /\ clickAddPanelButton p
         = (if clickOk p sel then Clicked sel else ClickThrew sel))
  /\ clickAddPanelButton p <> NotFound
  /\ (targetsFor version = legacyTargets \/ targetsFor version = modernTargets)
  /\ (Version.major version = None -> targetsFor version = modernTargets).
Proof.
  intros Hex. repeat split.
  - now apply tryEach_first.
  - unfold clickAddPanelButton. rewrite tryEach_none.
    intros Hnone. destruct Hex as [sel [Hin Hp]].
    specialize (Hnone sel Hin). congruence.
  - rewrite targetsFor_cases.
    destruct (Version.lt10 (Version.major version)); [now left | now right].
  - intros Hnan. rewrite targetsFor_cases, Hnan. reflexivity.
Qed.

Lemma resolution_survives_any_version_witness :
  (exists sel, In sel addPanelSelectors
               /\ present onlyAddVisualization sel = true)
  /\ clickAddPanelButton onlyAddVisualization <> NotFound
  /\ targetsFor "not-a-version" = modernTargets.
Proof.
  assert (Hex : exists sel, In sel addPanelSelectors
                            /\ present onlyAddVisualization sel = true).
  { exists ("button:has-text(" ++ dq ++ "Add visualization" ++ dq ++ ")").
    split; [simpl; tauto | vm_compute; reflexivity]. }
  split; [exact Hex|].
  destruct (resolution_survives_any_version "not-a-version"
              onlyAddVisualization Hex) as [_ [Hfound [_ Hnan]]].
  split; [exact Hfound | apply Hnan; reflexivity].
Defined.

Example add_panel_falls_back :
  clickAddPanelButton onlyAddVisualization
  = Clicked ("button:has-text(" ++ dq ++ "Add visualization" ++ dq ++ ")").
Proof. vm_compute. reflexivity. Qed.

(* ------------------------------------------------------------------ *)
(** ** The macro test *)

Import Macro.

Example marker_in_macroCode :
  includes macroCode macroMarker = true
  /\ includes macroCode quotedMacro = false.
Proof. vm_compute. split; reflexivity. Qed.

(** The request that carries the script of the test itself: its post
    data is the JSON text of its payload, in which the line feeds of
    the script are escaped, and the positive part passes on it. *)
Example test_script_in_request :
  Json.stringify macroPayload = macroPostData
  /\ Submission.submitted queryUrl macroPayload = sentMacro
  /\ positiveMacroTest [sentOther; sentMacro] = Passed sentMacro
  /\ includes macroPostData macroMarker = true.
Proof. vm_compute. repeat split. Qed.

(** When the positive part of the macro test passes, the request it
    waited for is among the requests issued, its method is POST, its
    URL contains [/api/ds/query], its post data contains the marker
    ['addmacro' STORE] as a substring, and so does the [expr] of the
    first query of its parsed payload; both checks read the request,
    and no response is consulted. *)
Lemma positive_part_reads_the_request (requests : list Request)
  (req : Request) :
  positiveMacroTest requests = Passed req ->
  In req requests
  /\ r_method req = "POST"
  /\ (exists a b, r_url req = a ++ "/api/ds/query" ++ b)
  /\ (exists data, postData req = Some data
                   /\ exists a b, data = a ++ macroMarker ++ b)
  /\ (exists payload, parsed req = Some payload
                      /\ toContain (exprOf payload) macroMarker = true).
Proof.
  unfold positiveMacroTest. intros H.
  destruct (find (requestPredicate macroMarker) requests) as [found|] eqn:Hf;
    [|discriminate].
  apply find_some in Hf. destruct Hf as [Hin Hpred].
  assert (Hc : exists payload,
             parsed found = Some payload
             /\ toContain (exprOf payload) macroMarker = true
             /\ found = req).
  { destruct (parsed found) as [payload|]; [|discriminate].
    exists payload.
    destruct (toContain (exprOf payload) macroMarker) eqn:Hc;
      destruct payload; try discriminate; injection H as <-; now repeat split. }
  destruct Hc as [payload [Hp [Hc <-]]].
  unfold requestPredicate in Hpred.
  apply andb_true_iff in Hpred. destruct Hpred as [Hpred Hdata].
  apply andb_true_iff in Hpred. destruct Hpred as [Hurl Hmeth].
  repeat split.
  - exact Hin.
  - now apply String.eqb_eq.
  - now apply includes_spec.
  - destruct (postData found) as [data|]; [|discriminate].
    exists data. split; [reflexivity|].
    apply andb_true_iff in Hdata. now apply includes_spec.
  - now exists payload.
Qed.

(** *** The JSON text of a payload holds its strings *)

Lemma string_app_assoc (a b c : string) : (a ++ b) ++ c = a ++ b ++ c.
Proof. induction a as [|x a IH]; simpl; [reflexivity | now rewrite IH]. Qed.

Lemma string_app_nil_r (a : string) : a ++ EmptyString = a.
Proof. induction a as [|x a IH]; simpl; [reflexivity | now rewrite IH]. Qed.

Lemma includes_refl (s : string) : includes s s = true.
Proof.
  apply includes_spec. exists EmptyString, EmptyString.
  simpl. now rewrite string_app_nil_r.
Qed.

Lemma includes_middle (a s b t : string) :
  includes s t = true -> includes (a ++ s ++ b) t = true.
Proof.
  rewrite !includes_spec. intros [x [y ->]].
  exists (a ++ x), (y ++ b). now rewrite !string_app_assoc.
Qed.

Lemma includes_after (a s t : string) :
  includes s t = true -> includes (a ++ s) t = true.
Proof.
  rewrite !includes_spec. intros [x [y ->]].
  exists (a ++ x), y. now rewrite !string_app_assoc.
Qed.

Lemma includes_trans (s t u : string) :
  includes s t = true -> includes t u = true -> includes s u = true.
Proof.
  intros Hst Htu. apply includes_spec in Hst. destruct Hst as [a [b ->]].
  now apply includes_middle.
Qed.

Lemma join_In (x : string) (parts : list string) :
  In x parts -> includes (Json.join parts) x = true.
Proof.
  induction parts as [|p parts IH]; intros Hin; [destruct Hin|].
  destruct parts as [|q parts].
  - destruct Hin as [<- | []]. apply includes_refl.
  - change (Json.join (p :: q :: parts))
      with (p ++ "," ++ Json.join (q :: parts)).
    destruct Hin as [<- | Hin].
    + apply (includes_middle EmptyString p). apply includes_refl.
    + do 2 apply includes_after. now apply IH.
Qed.

Lemma assoc_In (k : string) (fields : list (string * json)) (v : json) :
  assoc k fields = Some v -> In (k, v) fields.
Proof.
  induction fields as [|[k' v'] fields IH]; simpl; [discriminate|].
  destruct (String.eqb k k') eqn:E.
  - apply String.eqb_eq in E. intros [= ->]. left. now subst.
  - intros H. right. now apply IH.
Qed.

Lemma stringify_field (k : string) (fields : list (string * json))
  (v : json) :
  assoc k fields = Some v ->
  includes (Json.stringify (JObj fields)) (Json.stringify v) = true.
Proof.
  intros H. apply assoc_In in H.
  change (Json.stringify (JObj fields))
    with ("{" ++ Json.join
                   (map (fun kv => Json.quote (fst kv) ++ ":"
                                   ++ Json.stringify (snd kv)) fields)
          ++ "}").
  apply includes_middle.
  apply (includes_trans _ (Json.quote k ++ ":" ++ Json.stringify v)).
  - apply join_In.
    apply (in_map (fun kv => Json.quote (fst kv) ++ ":"
                             ++ Json.stringify (snd kv)) fields (k, v) H).
  - do 2 apply includes_after. apply includes_refl.
Qed.

Lemma stringify_first (x : json) (rest : list json) :
  includes (Json.stringify (JArr (x :: rest))) (Json.stringify x) = true.
Proof.
  change (Json.stringify (JArr (x :: rest)))
    with ("[" ++ Json.join (map Json.stringify (x :: rest)) ++ "]").
  apply includes_middle, join_In. now left.
Qed.

Lemma prop_carried (j : json) (k : string) (v : json) :
  prop j k = Val v ->
  includes (Json.stringify j) (Json.stringify v) = true.
Proof.
  destruct j as [| | | |items|fields]; try discriminate.
  unfold prop. destruct (assoc k fields) as [x|] eqn:E; [|discriminate].
  intros [= ->]. now apply (stringify_field k).
Qed.

(** The script that [queries[0].expr] reads is in the JSON text of the
    payload, as a JSON string. *)
Lemma stringify_carries (payload : json) (script : string) :
  exprOf payload = Val (JStr script) ->
  includes (Json.stringify payload) (Json.quote script) = true.
Proof.
  unfold exprOf. intros H.
  destruct (prop payload "queries") as [|q] eqn:Hq; [discriminate|].
  apply prop_carried in Hq.
  apply (includes_trans _ _ _ Hq). clear Hq.
  assert (Hx : exists x, includes (Json.stringify q) (Json.stringify x) = true
                         /\ prop x "expr" = Val (JStr script)).
  { destruct q as [|b|n|s|items|fields]; try discriminate.
    - destruct s; discriminate.
    - destruct items as [|x items]; [discriminate|].
      exists x. split; [apply stringify_first|].
      simpl in H. destruct x; try discriminate; exact H.
    - simpl in H. destruct (assoc "0" fields) as [x|] eqn:E; [|discriminate].
      exists x. split; [now apply (stringify_field "0")|].
      simpl in H. destruct x; try discriminate; exact H. }
  destruct Hx as [x [Hin Hx]]. apply (includes_trans _ _ _ Hin).
  now apply (prop_carried x "expr" (JStr script)).
Qed.

Lemma escape_app (a b : string) :
  Json.escape (a ++ b) = Json.escape a ++ Json.escape b.
Proof.
  induction a as [|c a IH]; simpl; [reflexivity|].
  now rewrite IH, string_app_assoc.
Qed.

(** The macro definition holds nothing that JSON escapes. *)
Lemma escape_quotedMacro : Json.escape quotedMacro = quotedMacro.
Proof. reflexivity. Qed.

Lemma find_first_match {A : Type} (p : A -> bool) (others later : list A)
  (x : A) :
  forallb (fun y => negb (p y)) others = true -> p x = true ->
  find p (others ++ x :: later) = Some x.
Proof.
  intros Hn Hx. induction others as [|y others IH]; simpl.
  - now rewrite Hx.
  - simpl in Hn. apply andb_true_iff in Hn. destruct Hn as [Hy Hn].
    apply negb_true_iff in Hy. rewrite Hy. now apply IH.
Qed.

(** C5: when a script that contains the macro definition
    [<% 2 + %> 'addmacro' STORE] (followed by anything, its invocation
    for one) is submitted to the query endpoint, the request (a POST to
    a URL containing [/api/ds/query] whose post data is the JSON text
    of a payload holding the script as [queries[0].expr]) is the one
    the positive part of the macro test captures: it is the first
    request that satisfies the predicate of [waitForRequest]; its post
    data contains the macro definition verbatim as a substring; and the
    positive part passes on it. Both containment checks of the test
    read the request, its post data and the payload parsed from it;
    no response enters. *)
Theorem macro_text_in_request_body (payload : json)
  (script before after u : string) (others later : list Request) :
  script = before ++ quotedMacro ++ after ->
  Submission.carries payload script ->
  includes u "/api/ds/query" = true ->
  forallb (fun r => negb (requestPredicate macroMarker r)) others = true ->
  requestPredicate macroMarker (Submission.submitted u payload) = true
  /\ r_method (Submission.submitted u payload) = "POST"
  /\ (exists data, postData (Submission.submitted u payload) = Some data
                   /\ exists a b, data = a ++ quotedMacro ++ b)
  /\ positiveMacroTest (others ++ Submission.submitted u payload :: later)
     = Passed (Submission.submitted u payload).
Proof.
  intros Hs Hc Hu Hothers. unfold Submission.carries in Hc.
  assert (Hq : includes (Json.stringify payload) quotedMacro = true).
  { apply (includes_trans _ _ _ (stringify_carries payload script Hc)).
    unfold Json.quote. apply includes_middle.
    rewrite Hs, !escape_app, escape_quotedMacro.
    apply includes_middle, includes_refl. }
  assert (Hm : includes (Json.stringify payload) macroMarker = true).
  { apply (includes_trans _ _ _ Hq). reflexivity. }
  assert (Hne : String.eqb (Json.stringify payload) EmptyString = false).
  { apply includes_spec in Hq. destruct Hq as [a [b ->]].
    apply String.eqb_neq. destruct a; discriminate. }
  assert (Hp : requestPredicate macroMarker (Submission.submitted u payload)
               = true).
  { unfold requestPredicate, Submission.submitted. simpl.
    now rewrite Hu, Hne, Hm. }
  split; [exact Hp|]. split; [reflexivity|]. split.
  - exists (Json.stringify payload). split; [reflexivity|].
    now apply includes_spec.
  - unfold positiveMacroTest.
    rewrite (find_first_match _ others later _ Hothers Hp).
    change (parsed (Submission.submitted u payload)) with (Some payload).
    cbv beta iota. rewrite Hc.
    assert (Ht : toContain (Val (JStr script)) macroMarker = true).
    { simpl. rewrite Hs. apply includes_middle. reflexivity. }
    rewrite Ht. destruct payload; try reflexivity; discriminate.
Qed.

Lemma macro_text_in_request_body_witness :
  LaterSamples.oneLineMacro
  = EmptyString ++ quotedMacro ++ (nl ++ "10 32 $addmacro")
  /\ postData (Submission.submitted queryUrl LaterSamples.oneLinePayload)
     = Some LaterSamples.oneLinePostData
  /\ requestPredicate macroMarker
       (Submission.submitted queryUrl LaterSamples.oneLinePayload) = true
  /\ r_method (Submission.submitted queryUrl LaterSamples.oneLinePayload)
     = "POST"
  /\ (exists data,
         postData (Submission.submitted queryUrl LaterSamples.oneLinePayload)
         = Some data
         /\ exists a b, data = a ++ quotedMacro ++ b)
  /\ positiveMacroTest
       ([sentOther]
        ++ Submission.submitted queryUrl LaterSamples.oneLinePayload :: [])
     = Passed (Submission.submitted queryUrl LaterSamples.oneLinePayload).
Proof.
  split; [reflexivity|]. split; [reflexivity|].
  apply (macro_text_in_request_body LaterSamples.oneLinePayload
           LaterSamples.oneLineMacro EmptyString (nl ++ "10 32 $addmacro")
           queryUrl [sentOther] []); reflexivity.
Defined.

(* ------------------------------------------------------------------ *)
(** ** Timestamps *)

Import Timestamp.

(** C4: the millisecond timestamp of a microsecond timestamp [t] is
    [floor(t / 1000)]: the one integer [q] with
    [1000 q <= t < 1000 q + 1000], by integer division and without
    rounding; for [t = 1700000000123456] it is [1700000000123], which
    is an integer and is not the rounded [1700000000124]. *)
Theorem timestamp_conversion_is_floor (t : Z) :
  (1000 * toMillis t <= t < 1000 * toMillis t + 1000)%Z
  /\ (forall q : Z, (1000 * q <= t < 1000 * q + 1000)%Z -> q = toMillis t)
  /\ toMillis 1700000000123456 = 1700000000123%Z
  /\ roundedMillis 1700000000123456 = 1700000000123%Z
  /\ toMillis 1700000000123999 = 1700000000123%Z
  /\ roundedMillis 1700000000123999 = 1700000000124%Z.
Proof.
  unfold toMillis, roundedMillis. repeat split; try reflexivity.
  - pose proof (Z.mul_div_le t 1000). lia.
  - pose proof (Z.mod_pos_bound t 1000).
    pose proof (Z.div_mod t 1000). lia.
  - intros q Hq. apply (Z.div_unique t 1000 q (t - 1000 * q)); lia.
Qed.

(* ------------------------------------------------------------------ *)
(** ** Listeners come before the statements that set exchanges off *)

Import Arming.




Example late_listener_is_caught :
  armedBeforeTriggers [Goto host; OnResponse HEditor; Click runButton] = false
  /\ unarmedTriggers [Goto host; OnResponse HEditor; Click runButton]
     = [(0%nat, FQuery)].
Proof. vm_compute. split; reflexivity. Qed.






(* ================================================================== *)
(** * Further properties of the scripts *)
(* ================================================================== *)

(* ------------------------------------------------------------------ *)
(** ** Health reports and the two filters *)

Import Reports MoreSamples.

Lemma deliver_snoc (h : Response -> State -> State)
  (events : list Response) (r : Response) (s : State) :
  deliver h (events ++ [r]) s = h r (deliver h events s).
Proof. unfold deliver. now rewrite fold_left_app. Qed.

Lemma healthBodies_snoc (events : list Response) (r : Response) :
  healthBodies (events ++ [r])
  = (healthBodies events
     ++ if isHealth r then match body r with
                           | Some j => [j]
                           | None => []
                           end
        else [])%list.
Proof. unfold healthBodies. rewrite flat_map_app. simpl. now rewrite app_nil_r. Qed.

Lemma lastReport_snoc (before : option json) (reports : list json) (j : json) :
  lastReport before (reports ++ [j]) = Some j.
Proof. unfold lastReport. rewrite map_app. simpl. apply last_last. Qed.

(** A handler that treats health responses as [onHealth] does keeps in
    [healthResponse] the last report that parsed. *)
Lemma deliver_health (h : Response -> State -> State) :
  (forall r s, healthResponse (h r s) = healthResponse (onHealth r s)) ->
  forall events s,
    healthResponse (deliver h events s)
    = lastReport (healthResponse s) (healthBodies events).
Proof.
  intros Hh events s. induction events as [|r events IH] using rev_ind.
  - reflexivity.
  - rewrite deliver_snoc, Hh, healthBodies_snoc. unfold onHealth.
    destruct (isHealth r); [destruct (body r) as [j|]|];
      simpl; rewrite ?app_nil_r, ?lastReport_snoc; auto.
Qed.

Lemma scenarioHandler_health (r : Response) (s : State) :
  healthResponse (scenarioHandler r s) = healthResponse (onHealth r s).
Proof.
  unfold scenarioHandler, onHealth, onQuery.
  destruct (isHealth r), (isQuery r), (body r); reflexivity.
Qed.

(** X1: after any sequence of responses, [healthResponse] holds the
    body of the last health exchange that parsed as JSON, whatever its
    status; a health exchange whose body is not JSON leaves the earlier
    report in place, and when no health exchange parsed the variable
    keeps the value it had. *)
Theorem health_response_is_last_parsed (events : list Response) (s : State) :
  healthResponse (deliver healthHandler events s)
  = lastReport (healthResponse s) (healthBodies events)
  /\ healthResponse (deliver scenarioHandler events s)
     = lastReport (healthResponse s) (healthBodies events)
  /\ (forall j, healthResponse
                  (deliver scenarioHandler
                     (events ++ [healthExchange j; garbledHealth]) s)
                = Some j).
Proof.
  repeat split.
  - apply deliver_health. reflexivity.
  - apply deliver_health. exact scenarioHandler_health.
  - intros j.
    rewrite (deliver_health scenarioHandler scenarioHandler_health).
    replace (events ++ [healthExchange j; garbledHealth])%list
      with ((events ++ [healthExchange j]) ++ [garbledHealth])%list
      by now rewrite <- app_assoc.
    rewrite !healthBodies_snoc. simpl.
    rewrite app_nil_r. apply lastReport_snoc.
Qed.

Lemma onQuery_health (matches : Response -> bool) (r : Response)
  (s : State) :
  healthResponse (onQuery matches r s) = healthResponse s.
Proof.
  unfold onQuery. destruct (matches r); [destruct (body r)|]; reflexivity.
Qed.

Lemma onHealth_health (r : Response) (s s' : State) :
  healthResponse s = healthResponse s' ->
  healthResponse (onHealth r s) = healthResponse (onHealth r s').
Proof.
  intros H. unfold onHealth.
  destruct (isHealth r); [destruct (body r)|]; simpl; congruence.
Qed.

Lemma settleAll_snoc (es : list Phases.Settled) (e : Phases.Settled)
  (s : State) :
  Phases.settleAll (es ++ [e]) s = Phases.settle e (Phases.settleAll es s).
Proof. unfold Phases.settleAll. now rewrite fold_left_app. Qed.

(** X2: the two awaits of the scenario handler do not interfere. Take
    the settlements of its [await response.json()] one at a time, in
    whatever order they happen and however those of different responses
    interleave: the buffer ends up as the handler with the query filter
    alone leaves it, given the responses in the order in which their
    first await settled, and [healthResponse] ends up as the handler
    with the health filter alone leaves it, given the responses in the
    order in which their second await settled. When the two awaits of
    each response settle one right after the other, the result is that
    of [scenarioHandler]. The handlers with one filter have one await
    each: the health handler never touches the buffer, and the query
    handler never touches [healthResponse]. *)
Theorem scenario_awaits_do_not_interfere (es : list Phases.Settled)
  (events : list Response) (s : State) :
  drain (Phases.settleAll es s)
  = drain (deliver editorHandler (Phases.querySettlements es) s)
  /\ healthResponse (Phases.settleAll es s)
     = healthResponse (deliver healthHandler (Phases.healthSettlements es) s)
  /\ Phases.settleAll
       (flat_map (fun r => [Phases.QuerySettled r; Phases.HealthSettled r])
                 events) s
     = deliver scenarioHandler events s
  /\ drain (deliver healthHandler events s) = drain s
  /\ healthResponse (deliver editorHandler events s) = healthResponse s.
Proof.
  split; [|split; [|split; [|split]]];
    [ | | |
      unfold drain; induction events as [|r events IH] using rev_ind;
      [reflexivity|];
      rewrite deliver_snoc; unfold healthHandler;
      now rewrite onHealth_responses
    | induction events as [|r events IH] using rev_ind; [reflexivity|];
      rewrite deliver_snoc; unfold editorHandler;
      now rewrite onQuery_health ].
  - unfold drain. induction es as [|e es IH] using rev_ind; [reflexivity|].
    unfold Phases.querySettlements in *.
    rewrite settleAll_snoc, flat_map_app. destruct e as [r|r]; simpl.
    + rewrite deliver_snoc. unfold editorHandler.
      now rewrite !onQuery_responses, IH.
    + now rewrite app_nil_r, onHealth_responses.
  - induction es as [|e es IH] using rev_ind; [reflexivity|].
    unfold Phases.healthSettlements in *.
    rewrite settleAll_snoc, flat_map_app. destruct e as [r|r]; simpl.
    + now rewrite app_nil_r, onQuery_health.
    + rewrite deliver_snoc. unfold healthHandler.
      now apply onHealth_health.
  - revert s.
    induction events as [|r events IH]; intros s; [reflexivity|].
    simpl. unfold Phases.settleAll in IH. now rewrite IH.
Qed.

(** A response that settles its first await, then another response
    that settles both of its own, then the first one's second await. *)
Example interleaved_settlements :
  drain (Phases.settleAll
           [Phases.QuerySettled (answered (c_json good));
            Phases.QuerySettled (healthExchange errorReport);
            Phases.HealthSettled (healthExchange errorReport);
            Phases.HealthSettled (answered (c_json good))] init)
  = [mkCaptured queryUrl (c_json good) 200]
  /\ healthResponse
       (Phases.settleAll
          [Phases.QuerySettled (answered (c_json good));
           Phases.QuerySettled (healthExchange errorReport);
           Phases.HealthSettled (healthExchange errorReport);
           Phases.HealthSettled (answered (c_json good))] init)
     = Some errorReport.
Proof. vm_compute. split; reflexivity. Qed.

Lemma capturedOf_plugin (r : Response) :
  capturedOf isWarp10Query r = filter ofPlugin (capturedOf isQuery r).
Proof.
  unfold capturedOf, isWarp10Query, isQuery, ofPlugin.
  destruct (includes (url r) "/api/ds/query" && String.eqb (method r) "POST");
    [|reflexivity].
  destruct (body r) as [j|]; simpl.
  - now destruct (includes (url r) "ds_type=clevercloud-warp10-datasource").
  - now destruct (includes (url r) "ds_type=clevercloud-warp10-datasource").
Qed.

(** X3: the buffer of the query-editor handler (which also asks for
    [ds_type=clevercloud-warp10-datasource] in the URL) is the buffer
    of the editor handler restricted to the entries whose URL names the
    plugin's type: the same entries, in the same order, with the
    queries of other datasource types left out. *)
Theorem plugin_buffer_is_restriction (events : list Response) :
  drain (deliver queryEditorHandler events init)
  = filter ofPlugin (drain (deliver editorHandler events init)).
Proof.
  unfold drain.
  rewrite (deliver_responses isWarp10Query queryEditorHandler
             (fun r s' => onQuery_responses isWarp10Query r s')).
  rewrite (deliver_responses isQuery editorHandler
             (fun r s' => onQuery_responses isQuery r s')).
  simpl. induction events as [|r events IH]; simpl; [reflexivity|].
  now rewrite filter_app, IH, capturedOf_plugin.
Qed.

Example plugin_buffer_sample :
  List.length (drain (deliver editorHandler
                        [answered (JNum 1); otherPlugin] init)) = 2%nat
  /\ List.length (drain (deliver queryEditorHandler
                           [answered (JNum 1); otherPlugin] init)) = 1%nat.
Proof. vm_compute. split; reflexivity. Qed.

Example health_line_ignores_status :
  logHealth (Some errorReport)
  = LHealthPassed (Val (JStr "dial tcp: connect: connection refused"))
  /\ logHealth None = LHealthMissing.
Proof. vm_compute. split; reflexivity. Qed.

(* ------------------------------------------------------------------ *)
(** ** The verification step and the final validation *)

Import Lines.

(** X4: [FinalTestValidation] looks at the last captured response
    only: its JSON is printed and the verdict line follows its status
    (completed for 200, failed otherwise); the responses before it play
    no part, so an earlier failed query is not reported; and the "no
    response" line is written exactly when nothing was captured. *)
Theorem final_validation_reads_last_only
  (earlier others : list Captured) (r : Captured) :
  FinalTestValidation (earlier ++ [r])
  = LLast (c_json r)
    :: (if (c_status r =? 200)%Z then [LCompleted]
        else [LFailedStatus (c_status r)])
  /\ FinalTestValidation (earlier ++ [r]) = FinalTestValidation (others ++ [r])
  /\ (forall rs, FinalTestValidation rs = [LNoResponse] <-> rs = []).
Proof.
  assert (H : forall l, FinalTestValidation (l ++ [r])
                        = LLast (c_json r)
                          :: (if (c_status r =? 200)%Z then [LCompleted]
                              else [LFailedStatus (c_status r)])).
  { intros l. unfold FinalTestValidation. now rewrite rev_unit. }
  repeat split.
  - apply H.
  - now rewrite !H.
  - intros Hlog. destruct rs as [|x rs] using rev_ind; [reflexivity|].
    unfold FinalTestValidation in Hlog. rewrite rev_unit in Hlog.
    destruct (c_status x =? 200)%Z; discriminate.
  - now intros ->.
Qed.

Lemma verifyResponses_empty :
  verifyResponses [] = ([], inl RCapturedSome).
Proof. reflexivity. Qed.

Lemma verifyResponses_returns_iff (rs : list Captured) :
  returns (verifyResponses rs) = true <-> rs <> [].
Proof.
  split.
  - intros H ->. discriminate.
  - apply verifyResponses_returns.
Qed.

(** X5: the verification step of the query-editor tests throws in one
    case only, when no response was captured (the assertion on
    [responses.length]); as soon as one response is in the buffer it
    returns normally whatever the responses contain, since every
    assertion on their content is caught and logged. *)
Theorem verification_fails_only_when_empty (rs : list Captured) :
  (returns (verifyResponses rs) = true <-> rs <> [])
  /\ (rs = [] -> verifyResponses rs = ([], inl RCapturedSome))
  /\ (rs <> [] ->
      exists l, verifyResponses rs = (LCount (List.length rs) :: l, inr tt)).
Proof.
  split; [apply verifyResponses_returns_iff|]. split.
  - now intros ->.
  - intros Hne. destruct rs as [|r rs]; [congruence|].
    unfold verifyResponses, inspectLoop.
    pose proof (loopFrom_returns (r :: rs) 0 (List.length (r :: rs))) as H.
    destruct (loopFrom 0 (List.length (r :: rs)) (r :: rs)) as [l res].
    simpl in H. subst res. exists l. reflexivity.
Qed.

Example verification_accepts_bad_content :
  returns (verifyResponses [allWrong]) = true
  /\ returns (verifyResponses []) = false.
Proof. vm_compute. split; reflexivity. Qed.

(** X6: an iteration of the inspection loop skips its response exactly
    when [results.A] is falsy: not only when it is missing, but also
    when it is [null], [false], [0] or the empty string; in every other
    case the line after "Checking" is the first success line or an
    error line. *)
Theorem skipped_iff_resultA_falsy (index total : nat) (r : Captured) :
  (truthy (resultAOf r) = false
   <-> checkResponse index total r
       = ([LChecking (index + 1) total; LSkipping (index + 1)], inr tt))
  /\ (forall v, In v [JNull; JBool false; JNum 0; JStr EmptyString] ->
      forall u st,
        checkResponse index total
          (mkCaptured u (JObj [("results", JObj [("A", v)])]) st)
        = ([LChecking (index + 1) total; LSkipping (index + 1)], inr tt)).
Proof.
  split.
  - unfold checkResponse. destruct (resultAOf r) as [|a] eqn:HA.
    + split; reflexivity.
    + destruct (truthy (Val a)) eqn:Ht.
      * split; [discriminate|]. intros H. exfalso. revert H.
        unfold tryBody.
        destruct (c_status r =? 200)%Z, (is200 (prop a "status")),
          (isString (schemaNameOf a)), (isArray (firstColumnOf a));
          simpl; discriminate.
      * split; reflexivity.
  - intros v Hv u st. simpl in Hv.
    destruct Hv as [<- | [<- | [<- | [<- | []]]]]; reflexivity.
Qed.

Lemma announced_app (l l' : list Log) :
  announced (l ++ l') = (announced l ++ announced l')%list.
Proof. unfold announced. apply flat_map_app. Qed.

Lemma errors_app (l l' : list Log) :
  errors (l ++ l') = (errors l ++ errors l')%list.
Proof. unfold errors. apply flat_map_app. Qed.

Lemma checkResponse_lines (i total : nat) (r : Captured) :
  announced (fst (checkResponse i total r)) = [(i + 1, total)%nat]
  /\ (errors (fst (checkResponse i total r)) = []
      \/ errors (fst (checkResponse i total r)) = [(i + 1)%nat]).
Proof.
  unfold checkResponse. destruct (resultAOf r) as [|a].
  - split; [reflexivity | now left].
  - destruct (truthy (Val a)).
    + unfold tryBody.
      destruct (c_status r =? 200)%Z; [|split; [reflexivity | now right]].
      destruct (is200 (prop a "status"));
        [|split; [reflexivity | now right]].
      destruct (isString (schemaNameOf a));
        [|split; [reflexivity | now right]].
      destruct (isArray (firstColumnOf a));
        (split; [reflexivity | (now left) || (now right)]).
    + split; [reflexivity | now left].
Qed.

Lemma loopFrom_announced (rs : list Captured) (i total : nat) :
  announced (fst (loopFrom i total rs))
  = map (fun k => (k + 1, total)%nat) (seq i (List.length rs)).
Proof.
  revert i. induction rs as [|r rs IH]; intros i; [reflexivity|].
  rewrite loopFrom_cons, announced_app, IH.
  destruct (checkResponse_lines i total r) as [-> _]. reflexivity.
Qed.

Lemma loopFrom_errors (rs : list Captured) (i total : nat) :
  (List.length (errors (fst (loopFrom i total rs))) <= List.length rs)%nat
  /\ forall k, In k (errors (fst (loopFrom i total rs))) ->
               (i < k <= i + List.length rs)%nat.
Proof.
  revert i. induction rs as [|r rs IH]; intros i.
  - split; [simpl; lia | intros k []].
  - rewrite loopFrom_cons, errors_app, length_app.
    destruct (IH (S i)) as [IHlen IHin].
    destruct (checkResponse_lines i total r) as [_ [-> | ->]];
      simpl List.length; split; try lia.
    + intros k Hk. simpl in Hk. specialize (IHin k Hk). lia.
    + intros k Hk. simpl in Hk. destruct Hk as [<- | Hk]; [lia|].
      specialize (IHin k Hk). lia.
Qed.

(** X7: the inspection loop announces every captured response once,
    in order, numbered from 1 to the number of responses, and writes at
    most one error line per response, each carrying the number of a
    response of the list. *)
Theorem every_response_is_announced_once (rs : list Captured) :
  announced (fst (inspectLoop rs))
  = map (fun k => (k + 1, List.length rs)%nat) (seq 0 (List.length rs))
  /\ (List.length (errors (fst (inspectLoop rs))) <= List.length rs)%nat
  /\ forall k, In k (errors (fst (inspectLoop rs))) ->
               (1 <= k <= List.length rs)%nat.
Proof.
  unfold inspectLoop. split; [apply loopFrom_announced|].
  destruct (loopFrom_errors rs 0 (List.length rs)) as [Hlen Hin].
  split; [exact Hlen|].
  intros k Hk. specialize (Hin k Hk). lia.
Qed.

Example announced_sample :
  announced (fst (inspectLoop [good; noResultA; allWrong]))
  = [(1, 3); (2, 3); (3, 3)]%nat
  /\ errors (fst (inspectLoop [good; noResultA; allWrong])) = [3%nat].
Proof. vm_compute. split; reflexivity. Qed.

(* ------------------------------------------------------------------ *)
(** ** The retried click *)

Import Retry.

(** X8: the retried click of the health-check tests ends for every
    behaviour of the button (four rounds of the loop are enough), never
    throws, and clicks at most three times: it stops at the first
    attempt whose click resolves, having logged "Button not clicked"
    and waited one second once for each attempt that failed before it;
    when all three attempts fail it goes on without a click, after
    three such lines, with [attempts] left at 4. *)
Theorem click_retry_is_bounded (clickOk : nat -> bool) (fuel : nat) :
  (4 <= fuel)%nat ->
  exists r,
    clickRetry clickOk fuel = Some r
    /\ clickedAt r = find clickOk [1; 2; 3]%nat
    /\ lines r
       = List.concat (repeat [LNotClicked; LWaited 1000]
                   (match clickedAt r with
                    | Some k => k - 1
                    | None => 3
                    end)%nat)
    /\ attemptsAfter r = match clickedAt r with
                         | Some k => k
                         | None => 4%nat
                         end.
Proof.
  intros Hfuel.
  do 4 (destruct fuel as [|fuel]; [lia|]).
  unfold clickRetry. simpl.
  destruct (clickOk 1%nat); [eexists; repeat split|].
  destruct (clickOk 2%nat); [eexists; repeat split|].
  destruct (clickOk 3%nat); eexists; repeat split.
Qed.

Lemma click_retry_is_bounded_witness :
  (4 <= 4)%nat
  /\ exists r,
       clickRetry (fun k => (k =? 3)%nat) 4 = Some r
       /\ clickedAt r = find (fun k => (k =? 3)%nat) [1; 2; 3]%nat
       /\ lines r
          = List.concat (repeat [LNotClicked; LWaited 1000]
                      (match clickedAt r with
                       | Some k => k - 1
                       | None => 3
                       end)%nat)
       /\ attemptsAfter r = match clickedAt r with
                            | Some k => k
                            | None => 4%nat
                            end.
Proof.
  split; [lia|].
  apply (click_retry_is_bounded (fun k => (k =? 3)%nat) 4). lia.
Defined.

Example click_retry_samples :
  clickRetry (fun _ => false) 4
  = Some (mkResult None 4
            [LNotClicked; LWaited 1000; LNotClicked; LWaited 1000;
             LNotClicked; LWaited 1000])
  /\ clickRetry (fun k => (2 <=? k)%nat) 4
     = Some (mkResult (Some 2%nat) 2 [LNotClicked; LWaited 1000])
  /\ clickRetry (fun _ => false) 3 = None.
Proof. vm_compute. repeat split. Qed.

(* ------------------------------------------------------------------ *)
(** ** Looking for the new dashboard and the edit button *)

Import Nav.

(** X9: [goToNewDashboard] returns normally only after a click on a
    "New dashboard" element, which is then the last element clicked;
    when the direct link is there it is the only element touched (the
    "General" section is not opened); and when the direct link is
    missing and "General" is there, "General" is clicked before the
    nested entry is looked for, so that the "Neither ... was found"
    error is raised with that click already made. *)
Theorem go_to_new_dashboard_cases (p opened : PageState) :
  (snd (goToNewDashboard p opened) = Returned ->
   exists before,
     fst (goToNewDashboard p opened)
     = (before ++ [Nth directNewDashboard 0])%list
     \/ fst (goToNewDashboard p opened)
        = (before ++ [Nth nestedNewDashboard 0])%list)
  /\ (available p directNewDashboard = true ->
      ~ In (Nth generalLink 0) (fst (goToNewDashboard p opened)))
  /\ (available p directNewDashboard = false ->
      available p generalLink = true ->
      clickable p (Nth generalLink 0) = true ->
      available opened nestedNewDashboard = false ->
      goToNewDashboard p opened = ([Nth generalLink 0], NotFoundError))
  /\ (snd (goToNewDashboard p opened) = NotFoundError <->
      available p directNewDashboard = false
      /\ (available p generalLink = false
          \/ (clickable p (Nth generalLink 0) = true
              /\ available opened nestedNewDashboard = false))).
Proof.
  unfold goToNewDashboard.
  destruct (available p directNewDashboard) eqn:Hd,
           (clickable p (Nth directNewDashboard 0)) eqn:Hcd,
           (available p generalLink) eqn:Hg,
           (clickable p (Nth generalLink 0)) eqn:Hcg,
           (available opened nestedNewDashboard) eqn:Hn,
           (clickable opened (Nth nestedNewDashboard 0)) eqn:Hcn;
    simpl; repeat split; intros;
    try discriminate; try reflexivity; try tauto;
    try (exists []; now left);
    try (exists [Nth generalLink 0]; now right);
    try (intros [H | []]; discriminate);
    try (intuition discriminate).
Qed.

(** X10: [clickEditButton] clicks at most one element: the "Edit" link
    when it is there, the "Edit" menu item only when the link is not;
    it raises "Edit button not found" exactly when neither is there;
    and a click that throws is not followed by a try of the other
    element. *)
Theorem click_edit_button_cases (p : PageState) :
  (available p editLink = true ->
   clickEditButton p
   = if clickable p (Nth editLink 0)
     then ([Nth editLink 0], Returned)
     else ([], ClickFailed (Nth editLink 0)))
  /\ (available p editLink = false -> available p editMenuItem = true ->
      clickEditButton p
      = if clickable p (Nth editMenuItem 0)
        then ([Nth editMenuItem 0], Returned)
        else ([], ClickFailed (Nth editMenuItem 0)))
  /\ (snd (clickEditButton p) = NotFoundError <->
      available p editLink = false /\ available p editMenuItem = false)
  /\ (List.length (fst (clickEditButton p)) <= 1)%nat.
Proof.
  unfold clickEditButton.
  destruct (available p editLink), (clickable p (Nth editLink 0)),
           (available p editMenuItem), (clickable p (Nth editMenuItem 0));
    simpl; repeat split; intros; try discriminate; try reflexivity;
    try lia; try tauto; try (intuition discriminate).
Qed.

Example nav_samples :
  goToNewDashboard onlyGeneral generalOpen
  = ([Nth generalLink 0; Nth nestedNewDashboard 0], Returned)
  /\ goToNewDashboard onlyGeneral onlyGeneral
     = ([Nth generalLink 0], NotFoundError)
  /\ clickEditButton menuItemOnly = ([Nth editMenuItem 0], Returned).
Proof. vm_compute. repeat split. Qed.

(* ------------------------------------------------------------------ *)
(** ** Reading the major version back *)

Import Printing.

Lemma digits_numeral (d : Decimal.uint) :
  forall (acc : Z) (seen : bool),
    (0 <= acc)%Z ->
    Version.digits (DecimalString.NilEmpty.string_of_uint d) acc seen
    = match d with
      | Decimal.Nil => if seen then Some acc else None
      | _ => Some (Z.of_nat (Nat.of_uint_acc d (Z.to_nat acc)))
      end.
Proof.
  induction d as [|d IH|d IH|d IH|d IH|d IH|d IH|d IH|d IH|d IH|d IH];
    intros acc seen Hacc; [reflexivity|..];
    cbn [DecimalString.NilEmpty.string_of_uint Version.digits Nat.of_uint_acc];
    match goal with
    | |- context [Version.isDigit ?c] =>
        change (Version.isDigit c) with true; cbv iota
    end;
    match goal with
    | |- context [Version.digitVal ?c] =>
        let v := eval vm_compute in (Version.digitVal c) in
        change (Version.digitVal c) with v
    end;
    rewrite IH by lia;
    rewrite Nat.tail_mul_spec;
    (destruct d;
     [cbn [Nat.of_uint_acc]; f_equal; lia | do 3 f_equal; lia ..]).
Qed.

Lemma to_uint_nonnil (n : nat) : Nat.to_uint n <> Decimal.Nil.
Proof.
  rewrite <- (DecimalNat.Unsigned.of_to n) at 1.
  rewrite DecimalNat.Unsigned.to_of. apply DecimalFacts.unorm_nonnil.
Qed.

Lemma parseInt10_numeral (d : Decimal.uint) :
  d <> Decimal.Nil ->
  Version.parseInt10 (DecimalString.NilEmpty.string_of_uint d)
  = Version.digits (DecimalString.NilEmpty.string_of_uint d) 0%Z false.
Proof. destruct d; [congruence | reflexivity ..]. Qed.

Lemma parseInt10_showNat (n : nat) :
  Version.parseInt10 (showNat n) = Some (Z.of_nat n).
Proof.
  unfold showNat.
  rewrite parseInt10_numeral by apply to_uint_nonnil.
  rewrite digits_numeral by lia.
  pose proof (to_uint_nonnil n) as Hnn.
  pose proof (DecimalNat.Unsigned.of_to n) as Hof.
  unfold Nat.of_uint in Hof. simpl Z.to_nat.
  destruct (Nat.to_uint n); [congruence | now rewrite Hof ..].
Qed.

Lemma beforeDot_numeral (d : Decimal.uint) (rest : string) :
  Version.beforeDot
    (DecimalString.NilEmpty.string_of_uint d ++ String "."%char rest)
  = DecimalString.NilEmpty.string_of_uint d.
Proof.
  induction d; simpl; [reflexivity | now rewrite IHd ..].
Qed.

(** X11: the major component of a version string of the form [N.rest]
    is compared with 10 as [N] is, whatever follows the first dot: the
    legacy constants are chosen exactly when [N < 10], and the
    verification of the editor test runs exactly when [N >= 10]. For
    [N] up to [2^53], which a number of the scripts holds exactly,
    [major] gives [N] itself. *)
Theorem major_of_written_version (n : nat) (rest : string)
  (rs : list Captured) :
  targetsFor (versionWithMajor n rest)
  = (if (n <? 10)%nat then legacyTargets else modernTargets)
  /\ verifyResponsesIfModern (versionWithMajor n rest) rs
     = (if (n <? 10)%nat then ret tt else verifyResponses rs)
  /\ ((Z.of_nat n <= 2 ^ 53)%Z ->
      Version.major (versionWithMajor n rest) = Some (Z.of_nat n)
      /\ Version.major (showNat n) = Some (Z.of_nat n)).
Proof.
  assert (Hm : Version.major (versionWithMajor n rest) = Some (Z.of_nat n)).
  { unfold Version.major, versionWithMajor, showNat.
    change ("." ++ rest) with (String "."%char rest).
    rewrite beforeDot_numeral. apply parseInt10_showNat. }
  assert (Hlt : Version.lt10 (Some (Z.of_nat n)) = (n <? 10)%nat).
  { simpl. destruct (Nat.ltb_spec n 10); [apply Z.ltb_lt | apply Z.ltb_ge]; lia. }
  assert (Hge : Version.ge10 (Some (Z.of_nat n)) = negb (n <? 10)%nat).
  { simpl. destruct (Nat.ltb_spec n 10); [apply Z.leb_gt | apply Z.leb_le]; lia. }
  split; [|split; [|intros _; split]].
  - rewrite targetsFor_cases, Hm, Hlt. reflexivity.
  - unfold verifyResponsesIfModern. rewrite Hm, Hge.
    now destruct (n <? 10)%nat.
  - exact Hm.
  - unfold Version.major, showNat.
    replace (Version.beforeDot
               (DecimalString.NilEmpty.string_of_uint (Nat.to_uint n)))
      with (DecimalString.NilEmpty.string_of_uint (Nat.to_uint n)).
    + apply parseInt10_showNat.
    + generalize (Nat.to_uint n). intros d.
      induction d; simpl; [reflexivity | now rewrite <- IHd ..].
Qed.

Lemma major_of_written_version_witness :
  (Z.of_nat 12 <= 2 ^ 53)%Z
  /\ targetsFor (versionWithMajor 12 "0.0-beta") = modernTargets
  /\ Version.major (versionWithMajor 12 "0.0-beta") = Some (Z.of_nat 12)
  /\ Version.major (showNat 12) = Some (Z.of_nat 12).
Proof.
  assert (Hle : (Z.of_nat 12 <= 2 ^ 53)%Z) by (vm_compute; discriminate).
  destruct (major_of_written_version 12 "0.0-beta" []) as [Ht [_ Hm]].
  split; [exact Hle|]. split; [exact Ht|]. exact (Hm Hle).
Defined.

Example written_versions :
  versionWithMajor 9 "5.2" = "9.5.2"
  /\ versionWithMajor 12 "0.0-beta" = "12.0.0-beta"
  /\ Version.major (versionWithMajor 12 "0.0-beta") = Some 12%Z.
Proof. vm_compute. repeat split. Qed.

(* ------------------------------------------------------------------ *)
(** ** The broken macro *)

Import MacroNegative.

(** X12: when the negative part of the macro test passes, a request
    that carries the broken macro was issued, and the answer the test
    inspected is among the responses seen, has [/api/ds/query] in its
    URL, answers a request whose post data contains
    ['brokenmacro' STORE], and has a parsed body whose [results.A.error]
    is truthy and whose [results.A.status] is not the number 200. *)
Theorem broken_macro_needs_backend_error (requests : list Request)
  (answers : list Answer) (clickResolves : bool) (a : Answer) :
  negativeMacroTest requests answers clickResolves = Passed a ->
  In a answers
  /\ (exists req, In req requests
                  /\ requestPredicate brokenMarker req = true)
  /\ (exists u v, a_url a = u ++ "/api/ds/query" ++ v)
  /\ (exists data, postData (a_request a) = Some data
                   /\ exists u v, data = u ++ brokenMarker ++ v)
  /\ (exists errorResult, a_json a = Some errorResult
                          /\ truthy (errorOf errorResult) = true
                          /\ is200 (statusOf errorResult) = false).
Proof.
  unfold negativeMacroTest. intros H.
  destruct clickResolves; [|discriminate].
  destruct (find (requestPredicate brokenMarker) requests) as [req|] eqn:Hreq;
    [|discriminate].
  destruct (find (answerPredicate brokenMarker) answers) as [found|] eqn:Hans;
    [|discriminate].
  apply find_some in Hreq. apply find_some in Hans.
  destruct Hans as [Hin Hpred].
  assert (Hc : exists errorResult,
             a_json found = Some errorResult
             /\ truthy (errorOf errorResult) = true
             /\ is200 (statusOf errorResult) = false
             /\ found = a).
  { destruct (a_json found) as [j|]; [|discriminate].
    exists j.
    destruct (truthy (errorOf j)) eqn:He, (is200 (statusOf j)) eqn:Hs;
      destruct j; try discriminate; injection H as <-; now repeat split. }
  destruct Hc as [errorResult [Hj [He [Hs <-]]]].
  unfold answerPredicate in Hpred.
  apply andb_true_iff in Hpred. destruct Hpred as [Hurl Hdata].
  repeat split.
  - exact Hin.
  - now exists req.
  - now apply includes_spec.
  - destruct (postData (a_request found)) as [data|]; [|discriminate].
    exists data. split; [reflexivity|].
    apply andb_true_iff in Hdata. now apply includes_spec.
  - now exists errorResult.
Qed.

Lemma broken_macro_needs_backend_error_witness :
  negativeMacroTest [sentMacro; sentBroken] [brokenAnswer] true
  = Passed brokenAnswer
  /\ In brokenAnswer [brokenAnswer]
  /\ (exists req, In req [sentMacro; sentBroken]
                  /\ requestPredicate brokenMarker req = true)
  /\ (exists u v, a_url brokenAnswer = u ++ "/api/ds/query" ++ v)
  /\ (exists data, postData (a_request brokenAnswer) = Some data
                   /\ exists u v, data = u ++ brokenMarker ++ v)
  /\ (exists errorResult, a_json brokenAnswer = Some errorResult
                          /\ truthy (errorOf errorResult) = true
                          /\ is200 (statusOf errorResult) = false).
Proof.
  split; [vm_compute; reflexivity|].
  apply (broken_macro_needs_backend_error [sentMacro; sentBroken]
           [brokenAnswer] true brokenAnswer).
  vm_compute; reflexivity.
Defined.

Example broken_macro_samples :
  negativeMacroTest [sentMacro] [brokenAnswer] true = TimedOut
  /\ negativeMacroTest [sentBroken]
       [mkAnswer queryUrl sentBroken (Some (c_json good))] true
     = ExpectFailed
  /\ negativeMacroTest [sentBroken]
       [mkAnswer queryUrl sentBroken
          (Some (JObj [("results",
                        JObj [("A", JObj [("error", JStr "boom")])])]))]
       true
     <> ExpectFailed.
Proof. vm_compute. repeat split. discriminate. Qed.

(* ------------------------------------------------------------------ *)
(** ** The other tests that create a datasource *)

Lemma other_ui_after_all (script : Script) (version : string)
  (ds : list string) :
  script = datasourceTest \/ script = pluginTest ->
  datasources
    (fold_left (fun u op => uiEffect op u) (script version)
               (mkUi ds EmptyString false None false))
  = removeName "test_warp10" (addName "test_warp10" ds).
Proof.
  intros [-> | ->].
  - unfold datasourceTest. cbv zeta.
    destruct (Version.lt10 (Version.major version)); run_ui; reflexivity.
  - unfold pluginTest. run_ui. reflexivity.
Qed.

Lemma removeName_addName_free (n : string) (ds : list string) :
  ~ In n ds -> removeName n (addName n ds) = ds.
Proof.
  intros Hn. unfold addName.
  destruct (hasName n ds) eqn:E; [apply hasName_In in E; contradiction|].
  unfold removeName. rewrite filter_app. simpl. rewrite String.eqb_refl. simpl.
  rewrite app_nil_r. clear E.
  induction ds as [|d ds IH]; [reflexivity|].
  simpl. destruct (String.eqb d n) eqn:Ed.
  - apply String.eqb_eq in Ed. subst d. exfalso. apply Hn. now left.
  - simpl. f_equal. apply IH. intros H. apply Hn. now right.
Qed.

(** X13: the datasource test and the combined plugin test delete what
    they create: started on a host on which the name [test_warp10] is
    free, a run of either that completes leaves the host with exactly
    the datasources it had before, whatever the version of the host;
    in particular none is named [test_warp10]. *)
Theorem other_tests_clean_up (script : Script) (env : Env)
  (ds : list string) :
  script = datasourceTest \/ script = pluginTest ->
  ~ In "test_warp10" ds ->
  fst (runTest env script ds) = Completed ->
  datasources (ui (snd (runTest env script ds))) = ds
  /\ ~ In "test_warp10" (datasources (ui (snd (runTest env script ds)))).
Proof.
  intros Hs Hfree H. unfold runTest in *.
  rewrite (runFrom_completed _ _ _ _ H), runAll_ui.
  unfold fresh. simpl ui.
  rewrite (other_ui_after_all script (version env) ds Hs).
  rewrite (removeName_addName_free _ _ Hfree). now split.
Qed.

Lemma other_tests_clean_up_witness :
  ~ In "test_warp10" ["Warp10-Clever-Cloud"]
  /\ fst (runTest legacyCalm datasourceTest ["Warp10-Clever-Cloud"]) = Completed
  /\ datasources (ui (snd (runTest legacyCalm datasourceTest
                             ["Warp10-Clever-Cloud"])))
     = ["Warp10-Clever-Cloud"]
  /\ ~ In "test_warp10"
       (datasources (ui (snd (runTest legacyCalm datasourceTest
                                ["Warp10-Clever-Cloud"])))).
Proof.
  assert (Hfree : ~ In "test_warp10" ["Warp10-Clever-Cloud"])
    by (intros [H | []]; discriminate H).
  split; [exact Hfree|]. split; [vm_compute; reflexivity|].
  apply (other_tests_clean_up datasourceTest legacyCalm
           ["Warp10-Clever-Cloud"]).
  - left; reflexivity.
  - exact Hfree.
  - vm_compute; reflexivity.
Defined.

(* ------------------------------------------------------------------ *)
(** ** What the outcome of a test depends on *)

Import Reads.

Lemma passes_without_buffer (env : Env)
  (arrivals' : nat -> list Response) (i : nat) (op : Op) (w w' : World) :
  readsBuffer (version env) op = false ->
  passes (withArrivals env arrivals') i op w' = passes env i op w.
Proof.
  intros H. destruct op; try reflexivity; try discriminate;
    try (match goal with x : Assertion |- _ => destruct x; reflexivity end);
    try (match goal with x : Helper |- _ => destruct x; reflexivity end).
  simpl in H. unfold passes, verifyResponsesIfModern, withArrivals.
  simpl version. now rewrite H.
Qed.

Lemma runFrom_without_buffer (env : Env)
  (arrivals' : nat -> list Response) (ops : list Op) :
  forallb (fun op => negb (readsBuffer (version env) op)) ops = true ->
  forall (i : nat) (w w' : World),
    fst (runFrom (withArrivals env arrivals') i ops w')
    = fst (runFrom env i ops w).
Proof.
  induction ops as [|op ops IH]; intros Hops i w w'; [reflexivity|].
  simpl in Hops. apply andb_true_iff in Hops. destruct Hops as [Hop Hops].
  apply negb_true_iff in Hop.
  simpl. rewrite (passes_without_buffer env arrivals' i op w w' Hop).
  destruct (passes env i op w); [now apply IH | reflexivity].
Qed.


(** X15: on a host whose major version is below 10, or does not parse,
    the editor test skips the verification of the captured responses,
    so its outcome does not depend on the network either: it does not
    fail when no query response was captured at all. *)
Theorem editor_test_skips_verification_on_legacy (env : Env)
  (arrivals' : nat -> list Response) (ds : list string) :
  Version.ge10 (Version.major (version env)) = false ->
  fst (runTest (withArrivals env arrivals') editorTest ds)
  = fst (runTest env editorTest ds).
Proof.
  intros Hv. unfold runTest. simpl version.
  apply runFrom_without_buffer.
  unfold editorTest. rewrite Hv. simpl. now rewrite Hv.
Qed.

Lemma editor_test_skips_verification_on_legacy_witness :
  Version.ge10 (Version.major (version legacyCalm)) = false
  /\ fst (runTest (withArrivals legacyCalm (fun _ => [garbled])) editorTest [])
     = fst (runTest legacyCalm editorTest [])
  /\ fst (runTest legacyCalm editorTest []) = Completed.
Proof.
  split; [reflexivity|]. split; [|vm_compute; reflexivity].
  apply (editor_test_skips_verification_on_legacy legacyCalm
           (fun _ => [garbled]) []).
  reflexivity.
Defined.

Example editor_test_needs_responses_on_modern :
  fst (runTest calm editorTest []) = Failed 15
  /\ fst (runTest answeredEarly editorTest []) = Completed.
Proof. vm_compute. split; reflexivity. Qed.

Lemma runFrom_cons_iff (env : Env) (i : nat) (op : Op) (rest : list Op)
  (w : World) :
  fst (runFrom env i (op :: rest) w) = Completed
  <-> passes env i op w = true
      /\ fst (runFrom env (S i) rest (receive (arrivals env i) (effect op w)))
         = Completed.
Proof.
  simpl. destruct (passes env i op w).
  - tauto.
  - split; [discriminate | intros [H _]; discriminate].
Qed.

Lemma dispatch_single (h : Handler) (events : list Response) (s : State) :
  fold_left (fun acc r => dispatch [h] r acc) events s
  = deliver (handlerOf h) events s.
Proof. reflexivity. Qed.

(** X16: the query-editor test completes exactly when the page loads,
    the editor is attached and visible, at least one response to a
    POST of the plugin's query endpoint with a JSON body has arrived by
    the end of the three-second wait, and the editor holds the
    expected script; what the captured responses contain (their status,
    their frames) has no influence. *)
Theorem query_editor_test_outcome (env : Env) (ds : list string) :
  fst (runTest env queryEditorTest ds) = Completed
  <-> resolves env 1 = true
      /\ resolves env 2 = true
      /\ visible env 3 editor = true
      /\ flat_map (capturedOf isWarp10Query) (arrivalsBetween env 0 5) <> []
      /\ valueOf env 6 editor = editorScript.
Proof.
  unfold runTest, queryEditorTest.
  rewrite !runFrom_cons_iff.
  cbn [passes runFrom fst].
  cbn [cap receive effect handlers fresh app].
  rewrite !dispatch_single.
  rewrite verifyResponses_returns_iff.
  rewrite !(deliver_responses isWarp10Query queryEditorHandler
              (fun r s' => onQuery_responses isWarp10Query r s')).
  cbn [responses init app arrivalsBetween handlerOf].
  rewrite !flat_map_app. cbn [flat_map]. rewrite app_nil_r, <- !app_assoc.
  rewrite String.eqb_eq.
  tauto.
Qed.

Example query_editor_test_samples :
  fst (runTest calm queryEditorTest []) = Failed 5
  /\ fst (runTest answeredEarly queryEditorTest []) = Completed
  /\ fst (runTest (withArrivals calm
                     (fun i => if (i =? 1)%nat
                               then [answered (c_json allWrong)] else []))
            queryEditorTest []) = Completed.
Proof. vm_compute. repeat split. Qed.

(* ------------------------------------------------------------------ *)
(** ** No cleanup after a failure *)

(** X17: in the first scenario script and in the datasource test, the
    deletion comes last and nothing guards it: when a run fails at any
    statement after the save (statement 8 in both scripts), the test
    ends there and the datasource [test_warp10] stays on the host,
    whatever the version of the host. *)
Theorem failure_skips_deletion (script : Script) (env : Env)
  (ds : list string) (k : nat) :
  script = scenarioV1 \/ script = datasourceTest ->
  fst (runTest env script ds) = Failed k -> (9 <= k)%nat ->
  In "test_warp10" (datasources (ui (snd (runTest env script ds)))).
Proof.
  unfold runTest. intros Hs H Hk.
  destruct (runFrom_failed _ _ _ _ _ H) as [n [Hn [Hlen ->]]].
  rewrite runAll_ui. simpl in Hn. subst n.
  destruct Hs as [-> | ->].
  - unfold scenarioV1 in *. rewrite targetsFor_cases in *.
    destruct (Version.lt10 (Version.major (version env)));
      simpl List.length in Hlen;
      do 9 (destruct k as [|k]; [lia|]);
      do 17 (destruct k as [|k]; [run_ui; apply In_addName|]);
      lia.
  - unfold datasourceTest in *. cbv zeta in *.
    destruct (Version.lt10 (Version.major (version env)));
      simpl List.length in Hlen;
      do 9 (destruct k as [|k]; [lia|]);
      do 28 (destruct k as [|k]; [run_ui; apply In_addName|]);
      lia.
Qed.

Lemma failure_skips_deletion_witness :
  fst (runTest (mkEnv "9.5.2" (fun i => negb (i =? 18)%nat) (fun _ _ => true)
                  (fun _ _ => None) (fun _ _ => editorScript)
                  (fun _ => everythingThere) (fun _ => []))
         scenarioV1 []) = Failed 18
  /\ In "test_warp10"
       (datasources
          (ui (snd (runTest
                      (mkEnv "9.5.2" (fun i => negb (i =? 18)%nat)
                         (fun _ _ => true) (fun _ _ => None)
                         (fun _ _ => editorScript)
                         (fun _ => everythingThere) (fun _ => []))
                      scenarioV1 [])))).
Proof.
  split; [vm_compute; reflexivity|].
  apply (failure_skips_deletion scenarioV1
           (mkEnv "9.5.2" (fun i => negb (i =? 18)%nat) (fun _ _ => true)
              (fun _ _ => None) (fun _ _ => editorScript)
              (fun _ => everythingThere) (fun _ => []))
           [] 18).
  - left; reflexivity.
  - vm_compute; reflexivity.
  - lia.
Defined.

(* ------------------------------------------------------------------ *)
(** ** The negative path and the report of the backend *)

Import HealthCheck.

Example reports_by_outcome :
  prop (healthReport Refused "dial tcp 127.0.0.1:9999") "status"
  = Val (JStr "error")
  /\ messageOf (healthReport Refused "dial tcp 127.0.0.1:9999")
     = Some "dial tcp 127.0.0.1:9999: connect: connection refused"
  /\ messageOf (healthReport Connected "Datasource is working")
     = Some "Datasource is working"
  /\ fst (runFrom LaterSamples.connectedRun 0 negativePath (fresh []))
     = Failed 9.
Proof. vm_compute. repeat split. Qed.


